(** * Sakkara Stats: a shallow embedding of [app.py]

    The Flask application keeps two tables ([User], [Reading]) behind
    SQLAlchemy and serves a handful of routes.  This development
    translates the routes into Rocq functions over an explicit store, a
    small state-and-exception monad for the request handlers, and
    binary64 arithmetic for the statistics, and proves the properties the
    specification states about them. *)

From Stdlib Require Import ZArith List String Ascii Bool Lia.
From Stdlib Require Import QArith Qabs.
From Stdlib Require Import Sorting.Sorted Sorting.Permutation.
From Stdlib Require Import Floats.SpecFloat.
Import ListNotations.

Local Open Scope string_scope.
Local Open Scope list_scope.
Local Open Scope Z_scope.

(** ** Python numbers

    [sum(...) / n] on two Python ints is true division: the result is the
    binary64 value nearest to the exact quotient (ties to even), or
    [ZeroDivisionError] when [n = 0].  Floats are [spec_float] at
    precision 53 and [emax = 1024]; no primitive float is involved, every
    operation is a computation on [Z].  Sugar values come from an
    [Integer] column (at most 64 bits), so the quotient of a sum by a
    count is far inside the binary64 range and the [OverflowError] of
    [int / int] is out of reach. *)

Inductive exn : Type :=
| BadRequestKeyError   (* request.form[k] with k absent *)
| NotFound             (* get_or_404 *)
| ValueError           (* int(s), strptime(s, fmt) *)
| ZeroDivisionError    (* a / 0 *)
| AttributeError.      (* None.email *)

Inductive result (A : Type) : Type :=
| Ok (a : A)
| Raise (e : exn).
Arguments Ok {A} a.
Arguments Raise {A} e.

Definition prec64 : Z := 53.
Definition emax64 : Z := 1024.

Definition float_of_int (z : Z) : spec_float :=
  match z with
  | Z0 => S754_zero false
  | Zpos p => S754_finite false p 0
  | Zneg p => S754_finite true p 0
  end.

(** [a / b] for ints [a], [b]. *)
Definition py_truediv (a b : Z) : result spec_float :=
  if b =? 0 then Raise ZeroDivisionError
  else Ok (SFdiv prec64 emax64 (float_of_int a) (float_of_int b)).

(** Nearest integer to [n / d] for [0 <= n], [0 < d], ties to even. *)
Definition div_half_even (n d : Z) : Z :=
  let q := n / d in
  let r := n mod d in
  match 2 * r ?= d with
  | Lt => q
  | Gt => q + 1
  | Eq => if Z.even q then q else q + 1
  end.

(** The number of tenths nearest to the exact value [m * 2^e]. *)
Definition tenths_of (m : positive) (e : Z) : Z :=
  if 0 <=? e then 10 * Zpos m * 2 ^ e
  else div_half_even (10 * Zpos m) (2 ^ (- e)).

(** The binary64 value nearest to [k / 10], with sign [s]. *)
Definition float_of_tenths (s : bool) (k : Z) : spec_float :=
  match k with
  | Zpos p => SFdiv prec64 emax64 (S754_finite s p 0) (S754_finite false 10 0)
  | _ => S754_zero s
  end.

(** [float.__round__(x, 1)]: infinities and NaN round to themselves;
    a finite [x] is written in decimal with one digit after the point,
    correctly rounded from its exact value (ties to even), and the
    decimal is read back as the nearest binary64. *)
Definition float_round1 (x : spec_float) : spec_float :=
  match x with
  | S754_finite s m e => float_of_tenths s (tenths_of m e)
  | _ => x
  end.

(** A value that is an [int] on some paths and a [float] on others. *)
Inductive PyNum : Type :=
| PyInt (z : Z)
| PyFloat (f : spec_float).

(** [round(v, 1)]: an int is returned as it is. *)
Definition py_round1 (v : PyNum) : PyNum :=
  match v with
  | PyInt z => PyInt z
  | PyFloat f => PyFloat (float_round1 f)
  end.

(** Exact rational value of a finite float (0 for the others). *)
Definition Q_of_float (x : spec_float) : Q :=
  match x with
  | S754_finite s m e =>
      let a := if s then Zneg m else Zpos m in
      if 0 <=? e then inject_Z (a * 2 ^ e)
      else Qmake a (Z.to_pos (2 ^ (- e)))
  | _ => 0%Q
  end.

Definition Q_of_num (v : PyNum) : Q :=
  match v with
  | PyInt z => inject_Z z
  | PyFloat f => Q_of_float f
  end.


(** ** The error monad of pure computations *)

Definition rbind {A B : Type} (m : result A) (k : A -> result B) : result B :=
  match m with
  | Ok a => k a
  | Raise e => Raise e
  end.

Declare Scope result_scope.
Delimit Scope result_scope with res.
Notation "x <~ m ; k" := (rbind m (fun x => k))
  (at level 100, m at next level, right associativity) : result_scope.

(** ** Statistics over a list of sugar values *)

(** [sum(xs)]: starts from 0 and adds from the left. *)
Definition py_sum (xs : list Z) : Z := fold_left Z.add xs 0.

(** [len(xs)] *)
Definition py_len {A : Type} (xs : list A) : Z := Z.of_nat (List.length xs).

(** [min(xs)] and [max(xs)] on a non-empty list: the first element is the
    running value, every later one replaces it when strictly smaller
    (larger). *)
Definition py_min (x : Z) (xs : list Z) : Z :=
  fold_left (fun acc y => if y <? acc then y else acc) xs x.

Definition py_max (x : Z) (xs : list Z) : Z :=
  fold_left (fun acc y => if acc <? y then y else acc) xs x.

(** [sum(xs) / len(xs) if xs else 0] *)
Definition mean_or_zero (xs : list Z) : result PyNum :=
  match xs with
  | [] => Ok (PyInt 0)
  | _ :: _ => (q <~ py_truediv (py_sum xs) (py_len xs); Ok (PyFloat q))%res
  end.

(** ** Calendar dates

    [db.Date] values are Python [date] objects, compared field by field. *)

Record date : Type := mkdate { year : Z; month : Z; day : Z }.

Definition date_compare (a b : date) : comparison :=
  match year a ?= year b with
  | Eq => match month a ?= month b with
          | Eq => day a ?= day b
          | c => c
          end
  | c => c
  end.

Definition date_eqb (a b : date) : bool :=
  match date_compare a b with Eq => true | _ => false end.

Definition date_ltb (a b : date) : bool :=
  match date_compare a b with Lt => true | _ => false end.

(** ** The two tables *)

Module User.
Record row : Type := mk {
  id : Z;
  email : string;
  name : option string;
  password_hash : string;
  role : string;
  is_active : bool;
  before_food_min : Z;
  before_food_max : Z;
  after_food_min : Z;
  after_food_max : Z }.

(** [User(email=..., password_hash=...)] once inserted under key [i]:
    the other columns take their declared defaults. *)
Definition new (i : Z) (e h : string) : row :=
  mk i e None h "user" true 80 130 90 180.

Definition set_name (v : option string) (u : row) : row :=
  mk (id u) (email u) v (password_hash u) (role u) (is_active u)
     (before_food_min u) (before_food_max u) (after_food_min u) (after_food_max u).
Definition set_password_hash (v : string) (u : row) : row :=
  mk (id u) (email u) (name u) v (role u) (is_active u)
     (before_food_min u) (before_food_max u) (after_food_min u) (after_food_max u).
Definition set_is_active (v : bool) (u : row) : row :=
  mk (id u) (email u) (name u) (password_hash u) (role u) v
     (before_food_min u) (before_food_max u) (after_food_min u) (after_food_max u).
Definition set_before_food_min (v : Z) (u : row) : row :=
  mk (id u) (email u) (name u) (password_hash u) (role u) (is_active u)
     v (before_food_max u) (after_food_min u) (after_food_max u).
Definition set_before_food_max (v : Z) (u : row) : row :=
  mk (id u) (email u) (name u) (password_hash u) (role u) (is_active u)
     (before_food_min u) v (after_food_min u) (after_food_max u).
Definition set_after_food_min (v : Z) (u : row) : row :=
  mk (id u) (email u) (name u) (password_hash u) (role u) (is_active u)
     (before_food_min u) (before_food_max u) v (after_food_max u).
Definition set_after_food_max (v : Z) (u : row) : row :=
  mk (id u) (email u) (name u) (password_hash u) (role u) (is_active u)
     (before_food_min u) (before_food_max u) (after_food_min u) v.
End User.

Module Reading.
Record row : Type := mk {
  id : Z;
  user_id : Z;
  date : date;
  time_of_day : string;
  meal_relation : string;
  sugar_value : Z;
  food_eaten : option string;
  created_at : Z   (* datetime.utcnow(), as a count of microseconds *) }.
End Reading.

(** The committed database: each table is the list of its rows in
    insertion order. *)
Record Store : Type := mkStore {
  users : list User.row;
  readings : list Reading.row }.

(** A new primary key: one more than the largest key in the table (1 for
    an empty table). *)
Definition next_id (ids : list Z) : Z := 1 + fold_right Z.max 0 ids.

(** *** Queries *)

(** [User.query.get(i)] *)
Definition user_get (i : Z) (us : list User.row) : option User.row :=
  find (fun u => User.id u =? i) us.

(** [User.query.filter_by(email=e).first()]: exact, case-sensitive match *)
Definition user_by_email (e : string) (us : list User.row) : option User.row :=
  find (fun u => String.eqb (User.email u) e) us.

(** [Reading.query.get(i)] *)
Definition reading_get (i : Z) (rs : list Reading.row) : option Reading.row :=
  find (fun r => Reading.id r =? i) rs.

(** [Reading.query.filter_by(user_id=i)] *)
Definition filter_by_user_id (i : Z) (rs : list Reading.row) : list Reading.row :=
  filter (fun r => Reading.user_id r =? i) rs.

(** [Reading.query.join(User)]: one result row for every pair of a reading
    and a user whose key is the reading's [user_id]. *)
Definition join_user (us : list User.row) (rs : list Reading.row) : list Reading.row :=
  flat_map (fun r =>
    flat_map (fun u => if User.id u =? Reading.user_id r then [r] else []) us) rs.

(** [order_by]: insertion sort by a boolean order, stable for rows the
    order does not separate (SQL leaves their order open). *)
Fixpoint insert_by {A : Type} (leb : A -> A -> bool) (x : A) (l : list A) : list A :=
  match l with
  | [] => [x]
  | y :: l' => if leb x y then x :: l else y :: insert_by leb x l'
  end.

Definition order_by {A : Type} (leb : A -> A -> bool) (l : list A) : list A :=
  fold_right (insert_by leb) [] l.

(** [Reading.date.desc(), Reading.created_at.desc()] *)
Definition date_desc_created_desc (a b : Reading.row) : bool :=
  match date_compare (Reading.date a) (Reading.date b) with
  | Gt => true
  | Eq => Reading.created_at b <=? Reading.created_at a
  | Lt => false
  end.

(** [Reading.date.asc()] *)
Definition date_asc (a b : Reading.row) : bool :=
  negb (date_ltb (Reading.date b) (Reading.date a)).

(** [.limit(n)] *)
Definition limit {A : Type} (n : nat) (l : list A) : list A := firstn n l.

(** ** Library functions the routes call

    werkzeug's password hashing and the Python built-ins that parse and
    print form values are outside the repository; the routes are
    parametric in them.  [generate_password_hash] draws a random salt,
    which is an explicit argument here. *)

Class PyLib : Type := {
  generate_password_hash : string -> string -> string;  (* salt, password *)
  check_password_hash : string -> string -> bool;       (* pwhash, password *)
  py_int : string -> option Z;                          (* int(s); None: ValueError *)
  strptime_ymd : string -> option date;                 (* strptime(s, '%Y-%m-%d').date() *)
  strftime_ymd : date -> string;                        (* d.strftime('%Y-%m-%d') *)
  py_strip : string -> string;                          (* s.strip() *)
  py_str : exn -> string                                (* str(e) *) }.

(** ** Requests, responses and the handler monad *)

Record Request : Type := mkRequest {
  method : string;
  form : list (string * string);
  utcnow : Z;          (* the server clock when the request is handled *)
  salt : string        (* randomness available to the hash function *) }.

(** [request.form.get(k)]: the first value sent under [k]. *)
Fixpoint form_get (k : string) (f : list (string * string)) : option string :=
  match f with
  | [] => None
  | (k', v) :: f' => if String.eqb k' k then Some v else form_get k f'
  end.

Module DashboardStats.
Record t : Type := mk {
  total_readings : Z;
  avg_sugar : PyNum;
  min_sugar : Z;
  max_sugar : Z;
  before_avg : PyNum;
  after_avg : PyNum }.
End DashboardStats.

Module AdminStats.
Record t : Type := mk {
  total_users : Z;
  total_readings : Z;
  active_users : Z;
  avg_sugar : PyNum;
  before_avg : PyNum;
  after_avg : PyNum }.
End AdminStats.

Record DataPoint : Type := mkDataPoint {
  x : string;
  y : Z;
  food : option string;
  time : string;
  user_email : option string }.

Record ChartData : Type := mkChartData {
  before_food : list DataPoint;
  after_food : list DataPoint;
  before_food_range : Z * Z;     (* min, max *)
  after_food_range : Z * Z }.

Inductive Page : Type :=
| login_html
| signup_html
| dashboard_html (readings : list Reading.row) (stats : DashboardStats.t)
| history_html (readings : list Reading.row)
| admin_dashboard_html (stats : AdminStats.t)
| manage_readings_html (readings : list Reading.row)
| profile_html
| manage_users_html (users : list User.row).

Inductive Response : Type :=
| redirect (endpoint : string)
| render_template (page : Page)
| jsonify (payload : ChartData)
| http_error (status : Z).

(** What a handler works on.  [session_db] is the database as the open
    SQLAlchemy session sees it: the committed rows with the changes the
    request has made so far.  [commit] makes them the committed rows,
    [rollback] drops them. *)
Record Ctx : Type := mkCtx {
  committed : Store;
  session_db : Store;
  user_cookie : option Z;            (* the id flask-login keeps in the session *)
  flashed : list (string * string)   (* message, category *) }.

Definition M (A : Type) : Type := Ctx -> result A * Ctx.

Definition ret {A : Type} (a : A) : M A := fun c => (Ok a, c).

Definition bind {A B : Type} (m : M A) (k : A -> M B) : M B :=
  fun c => match m c with
           | (Ok a, c') => k a c'
           | (Raise e, c') => (Raise e, c')
           end.

Definition raise {A : Type} (e : exn) : M A := fun c => (Raise e, c).

(** [try: m  except Exception as e: h e] *)
Definition try_except {A : Type} (m : M A) (h : exn -> M A) : M A :=
  fun c => match m c with
           | (Ok a, c') => (Ok a, c')
           | (Raise e, c') => h e c'
           end.

Definition lift {A : Type} (r : result A) : M A := fun c => (r, c).

Declare Scope handler_scope.
Delimit Scope handler_scope with M.
Notation "x <- m ;; k" := (bind m (fun x => k))
  (at level 100, m at next level, right associativity) : handler_scope.
Notation "m ;; k" := (bind m (fun _ => k))
  (at level 100, right associativity) : handler_scope.

Definition get_db : M Store := fun c => (Ok (session_db c), c).

Definition put_db (s : Store) : M unit :=
  fun c => (Ok tt, mkCtx (committed c) s (user_cookie c) (flashed c)).

(** [db.session.commit()].  The rows written are taken to fit their
    columns: the database refuses an integer outside the range of an
    [Integer] column, and the statements that assert a commit bound the
    integers they write. *)
Definition commit : M unit :=
  fun c => (Ok tt, mkCtx (session_db c) (session_db c) (user_cookie c) (flashed c)).

(** [db.session.rollback()] *)
Definition rollback : M unit :=
  fun c => (Ok tt, mkCtx (committed c) (committed c) (user_cookie c) (flashed c)).

(** [flash(message, category)] *)
Definition flash (message category : string) : M unit :=
  fun c => (Ok tt, mkCtx (committed c) (session_db c) (user_cookie c)
                         (flashed c ++ [(message, category)])).

(** [login_user(user)]: flask-login refuses a user whose [is_active] is
    false; otherwise it stores the user's id in the session. *)
Definition login_user (u : User.row) : M bool :=
  fun c => if User.is_active u
           then (Ok true, mkCtx (committed c) (session_db c) (Some (User.id u)) (flashed c))
           else (Ok false, c).

(** [request.form[k]] *)
Definition form_item (req : Request) (k : string) : M string :=
  match form_get k (form req) with
  | Some v => ret v
  | None => raise BadRequestKeyError
  end.

(** [current_user]: the row [load_user] finds for the id in the session.
    It lives in the SQLAlchemy session, so it shows the request's own
    changes.  Without a logged-in user [current_user] is flask-login's
    anonymous user, which has none of the columns. *)
Definition load_user (c : Ctx) : option User.row :=
  match user_cookie c with
  | Some i => user_get i (users (session_db c))
  | None => None
  end.

Definition current_user : M User.row :=
  fun c => match load_user c with
           | Some u => (Ok u, c)
           | None => (Raise AttributeError, c)
           end.

(** [current_user.<column> = v] *)
Definition set_current_user (f : User.row -> User.row) : M unit :=
  (u <- current_user ;;
   db <- get_db ;;
   put_db (mkStore
     (map (fun v => if User.id v =? User.id u then f v else v) (users db))
     (readings db)))%M.

(** [current_user.is_authenticated]: for a [UserMixin] user this is the
    user's [is_active], which the [User] model overrides with its column,
    so an account that has been switched off is not authenticated,
    whatever its session says; the anonymous user is not authenticated. *)
Definition is_authenticated (c : Ctx) : bool :=
  match load_user c with
  | Some u => User.is_active u
  | None => false
  end.

(** [@login_required]: a request that is not authenticated is sent to the
    login view. *)
Definition login_required (h : M Response) : M Response :=
  fun c => if is_authenticated c then h c
           else (flash "Please log in to access this page." "message" ;;
                 ret (redirect "login"))%M c.

Definition is_admin (u : User.row) : bool := String.eqb (User.role u) "admin".

(** ** Statistics of the two dashboards *)

Definition sugar_values (rs : list Reading.row) : list Z := map Reading.sugar_value rs.

Definition is_before_food (r : Reading.row) : bool :=
  String.eqb (Reading.meal_relation r) "Before Food".

Definition is_after_food (r : Reading.row) : bool :=
  String.eqb (Reading.meal_relation r) "After Food".

(** [sum(r.sugar_value for r in rs) / len(rs) if rs else 0] *)
Definition sugar_mean_or_zero (rs : list Reading.row) : result PyNum :=
  match rs with
  | [] => Ok (PyInt 0)
  | _ :: _ => (q <~ py_truediv (py_sum (sugar_values rs)) (py_len rs); Ok (PyFloat q))%res
  end.

(** The [stats] dictionary of [dashboard], from [all_readings]. *)
Definition dashboard_stats (all_readings : list Reading.row) : result DashboardStats.t :=
  match all_readings with
  | r0 :: rest =>
      (let total_readings := py_len all_readings in
       avg_sugar <~ py_truediv (py_sum (sugar_values all_readings)) total_readings;
       let min_sugar := py_min (Reading.sugar_value r0) (sugar_values rest) in
       let max_sugar := py_max (Reading.sugar_value r0) (sugar_values rest) in
       let before_food_readings := filter is_before_food all_readings in
       let after_food_readings := filter is_after_food all_readings in
       before_avg <~ sugar_mean_or_zero before_food_readings;
       after_avg <~ sugar_mean_or_zero after_food_readings;
       Ok (DashboardStats.mk total_readings (py_round1 (PyFloat avg_sugar))
             min_sugar max_sugar (py_round1 before_avg) (py_round1 after_avg)))%res
  | [] =>
      Ok (DashboardStats.mk 0 (py_round1 (PyInt 0)) 0 0
            (py_round1 (PyInt 0)) (py_round1 (PyInt 0)))
  end.

(** The [stats] dictionary of [admin_dashboard], from the two tables. *)
Definition admin_stats (db : Store) : result AdminStats.t :=
  (let total_users := py_len (users db) in
   let total_readings := py_len (readings db) in
   let active_users := py_len (filter User.is_active (users db)) in
   let all_readings := readings db in
   avg_sugar <~ sugar_mean_or_zero all_readings;
   let before_food_readings := filter is_before_food all_readings in
   let after_food_readings := filter is_after_food all_readings in
   before_avg <~ sugar_mean_or_zero before_food_readings;
   after_avg <~ sugar_mean_or_zero after_food_readings;
   Ok (AdminStats.mk total_users total_readings active_users
         (py_round1 avg_sugar) (py_round1 before_avg) (py_round1 after_avg)))%res.

(** [Reading.query.filter_by(user_id=i).order_by(Reading.date.desc(),
    Reading.created_at.desc())]: the [list_readings] of the specification. *)
Definition list_readings (user_id : Z) (db : Store) : list Reading.row :=
  order_by date_desc_created_desc (filter_by_user_id user_id (readings db)).

(** ** The routes *)

Section Routes.
Context {lib : PyLib}.

Definition login (req : Request) : M Response :=
  (fell_through <-
     (if String.eqb (method req) "POST" then
        email <- form_item req "email" ;;
        password <- form_item req "password" ;;
        db <- get_db ;;
        match user_by_email email (users db) with
        | Some user =>
            if check_password_hash (User.password_hash user) password then
              if User.is_active user then
                login_user user ;;
                if is_admin user
                then ret (Some (redirect "admin_dashboard"))
                else ret (Some (redirect "dashboard"))
              else
                flash "Your account is deactivated. Please contact admin." "error" ;;
                ret None
            else
              flash "Invalid email or password." "error" ;; ret None
        | None =>
            flash "Invalid email or password." "error" ;; ret None
        end
      else ret None) ;;
   match fell_through with
   | Some r => ret r
   | None => ret (render_template login_html)
   end)%M.

Definition signup (req : Request) : M Response :=
  (if String.eqb (method req) "POST" then
     email <- form_item req "email" ;;
     password <- form_item req "password" ;;
     db <- get_db ;;
     match user_by_email email (users db) with
     | Some _ =>
         flash "Email already exists." "error" ;;
         ret (render_template signup_html)
     | None =>
         let user := User.new (next_id (map User.id (users db))) email
                       (generate_password_hash (salt req) password) in
         put_db (mkStore (users db ++ [user]) (readings db)) ;;
         commit ;;
         flash "Account created successfully! Please login." "success" ;;
         ret (redirect "login")
     end
   else ret (render_template signup_html))%M.

Definition dashboard (req : Request) : M Response :=
  login_required
  (u <- current_user ;;
   if is_admin u then ret (redirect "admin_dashboard")
   else
     db <- get_db ;;
     let readings_ := limit 10 (list_readings (User.id u) db) in
     let all_readings := filter_by_user_id (User.id u) (readings db) in
     stats <- lift (dashboard_stats all_readings) ;;
     ret (render_template (dashboard_html readings_ stats)))%M.

Definition add_reading (req : Request) : M Response :=
  login_required
  (u <- current_user ;;
   d_str <- form_item req "date" ;;
   d <- lift (match strptime_ymd d_str with Some d => Ok d | None => Raise ValueError end) ;;
   time_of_day <- form_item req "time_of_day" ;;
   meal_relation <- form_item req "meal_relation" ;;
   v_str <- form_item req "sugar_value" ;;
   sugar_value <- lift (match py_int v_str with Some v => Ok v | None => Raise ValueError end) ;;
   food_eaten <- form_item req "food_eaten" ;;
   db <- get_db ;;
   let reading := Reading.mk (next_id (map Reading.id (readings db))) (User.id u) d
                    time_of_day meal_relation sugar_value (Some food_eaten) (utcnow req) in
   put_db (mkStore (users db) (readings db ++ [reading])) ;;
   commit ;;
   flash "Reading added successfully!" "success" ;;
   ret (redirect "dashboard"))%M.

Definition history (req : Request) : M Response :=
  login_required
  (u <- current_user ;;
   if is_admin u then ret (redirect "manage_readings")
   else
     db <- get_db ;;
     let readings_ := list_readings (User.id u) db in
     ret (render_template (history_html readings_)))%M.

Definition nonempty (s : string) : bool := negb (String.eqb s "").

(** [int(request.form[k])] *)
Definition form_int (req : Request) (k : string) : M Z :=
  (s <- form_item req k ;;
   lift (match py_int s with Some v => Ok v | None => Raise ValueError end))%M.

(** [request.form.get(k, '').strip()] *)
Definition form_get_stripped (req : Request) (k : string) : string :=
  py_strip (match form_get k (form req) with Some v => v | None => "" end).

(** The body of the [try] block answers [Some r] when it returns [r]
    itself and [None] when control reaches the end of the block. *)
Definition update_profile (req : Request) : M Response :=
  login_required
  (returned <-
     try_except
       ((match form_get "name" (form req) with
         | Some n => if nonempty (py_strip n)
                     then set_current_user (User.set_name (Some (py_strip n)))
                     else ret tt
         | None => ret tt
         end) ;;
        v1 <- form_int req "before_food_min" ;;
        set_current_user (User.set_before_food_min v1) ;;
        v2 <- form_int req "before_food_max" ;;
        set_current_user (User.set_before_food_max v2) ;;
        v3 <- form_int req "after_food_min" ;;
        set_current_user (User.set_after_food_min v3) ;;
        v4 <- form_int req "after_food_max" ;;
        set_current_user (User.set_after_food_max v4) ;;
        let new_password := form_get_stripped req "new_password" in
        let confirm_password := form_get_stripped req "confirm_password" in
        early <-
          (if nonempty new_password then
             if String.eqb new_password confirm_password then
               set_current_user
                 (User.set_password_hash (generate_password_hash (salt req) new_password)) ;;
               flash "Profile and password updated successfully!" "success" ;;
               ret None
             else
               flash "Passwords do not match!" "error" ;;
               ret (Some (redirect "profile"))
           else
             flash "Profile updated successfully!" "success" ;; ret None) ;;
        match early with
        | Some r => ret (Some r)
        | None => commit ;; ret None
        end)
       (fun e =>
          rollback ;;
          flash (String.append "Error updating profile: " (py_str e)) "error" ;;
          ret None) ;;
   match returned with
   | Some r => ret r
   | None => ret (redirect "profile")
   end)%M.

Definition admin_dashboard (req : Request) : M Response :=
  login_required
  (u <- current_user ;;
   if negb (is_admin u) then ret (redirect "dashboard")
   else
     db <- get_db ;;
     stats <- lift (admin_stats db) ;;
     ret (render_template (admin_dashboard_html stats)))%M.

Definition manage_readings (req : Request) : M Response :=
  login_required
  (u <- current_user ;;
   if negb (is_admin u) then ret (redirect "dashboard")
   else
     db <- get_db ;;
     let readings_ :=
       order_by date_desc_created_desc (join_user (users db) (readings db)) in
     ret (render_template (manage_readings_html readings_)))%M.

Definition toggle_user (user_id : Z) (req : Request) : M Response :=
  login_required
  (u <- current_user ;;
   if negb (is_admin u) then ret (redirect "dashboard")
   else
     db <- get_db ;;
     match user_get user_id (users db) with
     | None => raise NotFound
     | Some user =>
         let toggled := User.set_is_active (negb (User.is_active user)) in
         put_db (mkStore
           (map (fun v => if User.id v =? User.id user then toggled v else v) (users db))
           (readings db)) ;;
         commit ;;
         let status := if negb (User.is_active user) then "activated" else "deactivated" in
         flash (String.append "User "
                  (String.append (User.email user)
                     (String.append " has been " (String.append status "."))))
               "success" ;;
         ret (redirect "manage_users")
     end)%M.

Definition delete_reading (reading_id : Z) (req : Request) : M Response :=
  login_required
  (db <- get_db ;;
   match reading_get reading_id (readings db) with
   | None => raise NotFound
   | Some reading =>
       u <- current_user ;;
       if negb (is_admin u) && negb (Reading.user_id reading =? User.id u) then
         flash "Unauthorized action." "error" ;;
         ret (redirect "history")
       else
         put_db (mkStore (users db)
                   (filter (fun r => negb (Reading.id r =? Reading.id reading))
                           (readings db))) ;;
         commit ;;
         flash "Reading deleted successfully!" "success" ;;
         if is_admin u then ret (redirect "manage_readings")
         else ret (redirect "history")
   end)%M.

(** The [for reading in readings] loop of [chart_data]; [reading.user] is
    the row of the owner, [None] when there is none. *)
Fixpoint chart_loop (admin : bool) (us : list User.row) (rs : list Reading.row)
    (before_food_data after_food_data : list DataPoint)
    : result (list DataPoint * list DataPoint) :=
  match rs with
  | [] => Ok (before_food_data, after_food_data)
  | reading :: rs' =>
      (owner_email <~
         (if admin then
            match user_get (Reading.user_id reading) us with
            | Some owner => Ok (Some (User.email owner))
            | None => Raise AttributeError
            end
          else Ok None);
       let data_point :=
         mkDataPoint (strftime_ymd (Reading.date reading))
                     (Reading.sugar_value reading)
                     (Reading.food_eaten reading)
                     (Reading.time_of_day reading)
                     owner_email in
       if is_before_food reading
       then chart_loop admin us rs' (before_food_data ++ [data_point]) after_food_data
       else chart_loop admin us rs' before_food_data (after_food_data ++ [data_point]))%res
  end.

(** The readings [chart_data] selects for the actor. *)
Definition chart_readings (u : User.row) (db : Store) : list Reading.row :=
  if is_admin u
  then order_by date_asc (join_user (users db) (readings db))
  else order_by date_asc (filter_by_user_id (User.id u) (readings db)).

Definition chart_data (req : Request) : M Response :=
  login_required
  (u <- current_user ;;
   db <- get_db ;;
   let readings_ := chart_readings u db in
   data <- lift (chart_loop (is_admin u) (users db) readings_ [] []) ;;
   ret (jsonify (mkChartData (fst data) (snd data)
                   (User.before_food_min u, User.before_food_max u)
                   (User.after_food_min u, User.after_food_max u))))%M.

End Routes.

(** ** Serving one request

    Between requests the application is its committed database and the
    login cookie.  A request opens a fresh SQLAlchemy session on the
    committed rows; when the handler is done the session is removed, which
    drops whatever it did not commit.  An exception that leaves the
    handler becomes an error response: 400 for a missing form field, 404
    for [get_or_404], 500 otherwise. *)

Record App : Type := mkApp {
  database : Store;
  cookie : option Z }.

Definition status_of (e : exn) : Z :=
  match e with
  | BadRequestKeyError => 400
  | NotFound => 404
  | _ => 500
  end.

Record Served : Type := mkServed {
  response : Response;
  messages : list (string * string);
  app_after : App }.

Definition serve (h : M Response) (a : App) : Served :=
  let c0 := mkCtx (database a) (database a) (cookie a) [] in
  match h c0 with
  | (Ok r, c) => mkServed r (flashed c) (mkApp (committed c) (user_cookie c))
  | (Raise e, c) =>
      mkServed (http_error (status_of e)) (flashed c) (mkApp (committed c) (user_cookie c))
  end.

(** ** The statistics in the specification's words

    "Partition S into before and after by meal relation; compute the mean
    of each partition independently, 0 if empty, rounded to one decimal
    place." *)

Definition partition_of (label : string) (S : list Reading.row) : list Reading.row :=
  filter (fun r => String.eqb (Reading.meal_relation r) label) S.

(** The binary64 mean of the sugar values of a non-empty list. *)
Definition float_mean (rs : list Reading.row) : spec_float :=
  SFdiv prec64 emax64 (float_of_int (py_sum (sugar_values rs))) (float_of_int (py_len rs)).

Definition rounded_mean (rs : list Reading.row) : PyNum :=
  match rs with
  | [] => PyInt 0
  | _ :: _ => PyFloat (float_round1 (float_mean rs))
  end.

(** [y] is [x] to one decimal place: the binary64 nearest to [k / 10] for
    a whole number [k] of tenths at most half a tenth away from [x]. *)
Definition one_decimal_of (x y : spec_float) : Prop :=
  match x with
  | S754_finite s m e =>
      exists k : Z, 0 <= k /\ y = float_of_tenths s k /\
        (Qabs (10 * Q_of_float (S754_finite false m e) - inject_Z k) <= 1 # 2)%Q
  | _ => y = x
  end.

(** The binary64 value of a whole number. *)
Definition float64 (n : Z) : spec_float := binary_normalize prec64 emax64 n 0 false.

(** A reading with its meal relation and sugar value replaced. *)
Definition measured (meal : string) (v : Z) (r : Reading.row) : Reading.row :=
  Reading.mk (Reading.id r) (Reading.user_id r) (Reading.date r) (Reading.time_of_day r)
             meal v (Reading.food_eaten r) (Reading.created_at r).

(** Readings tagged with one of the two meal relations. *)
Definition is_tagged (r : Reading.row) : bool := is_before_food r || is_after_food r.

(** The user a request of [a] acts as, if any. *)
Definition actor (a : App) : option User.row :=
  match cookie a with
  | Some i => user_get i (users (database a))
  | None => None
  end.

(** The request of [a] comes from a logged-in user whose account is
    active. *)
Definition authenticated (a : App) : bool :=
  match actor a with
  | Some u => User.is_active u
  | None => false
  end.

(** The range of an [Integer] column on both database backends the
    application is configured for (four bytes on PostgreSQL, eight on
    SQLite). *)
Definition fits_integer (v : Z) : Prop := - 2 ^ 31 <= v < 2 ^ 31.

(** The length a [String(100)] column takes on both backends. *)
Definition fits_string100 (s : string) : Prop := (String.length s <= 100)%nat.

(** "Admin or the reading's owner". *)
Definition may_delete (u : User.row) (r : Reading.row) : bool :=
  is_admin u || (Reading.user_id r =? User.id u).

(** The owner of a reading: the user row its [user_id] names. *)
Definition owner_of (us : list User.row) (r : Reading.row) : option User.row :=
  user_get (Reading.user_id r) us.

(** The data point of a reading, with the owner's email for an admin and
    a null email for everybody else. *)
Definition chart_point {lib : PyLib} (admin : bool) (us : list User.row)
    (r : Reading.row) : DataPoint :=
  mkDataPoint (strftime_ymd (Reading.date r)) (Reading.sugar_value r)
    (Reading.food_eaten r) (Reading.time_of_day r)
    (if admin then option_map User.email (owner_of us r) else None).

(** "The email is already registered (case-sensitive exact match)". *)
Definition email_registered (e : string) (us : list User.row) : bool :=
  existsb (fun u => String.eqb (User.email u) e) us.

(** "Ordered by date descending, then creation time descending": [a] may
    stand before [b]. *)
Definition newer_first (a b : Reading.row) : Prop :=
  date_compare (Reading.date a) (Reading.date b) = Gt \/
  (Reading.date a = Reading.date b /\ Reading.created_at b <= Reading.created_at a).

(** The constraints the schema puts on the tables: user ids are a primary
    key and every reading's [user_id] is the key of a user. *)
Definition store_ok (db : Store) : Prop :=
  NoDup (map User.id (users db)) /\
  forall r, In r (readings db) -> exists u, In u (users db) /\ User.id u = Reading.user_id r.

(** The claim that the dashboard view lists all readings of its (active)
    user. *)
Definition dashboard_lists_all : Prop :=
  forall (a : App) (req : Request) (u : User.row) rs stats,
    actor a = Some u -> User.is_active u = true -> is_admin u = false ->
    response (serve (dashboard req) a) = render_template (dashboard_html rs stats) ->
    forall r, In r (filter_by_user_id (User.id u) (readings (database a))) -> In r rs.

(** ** A small library instance and sample data

    Enough of the library functions to run the routes on examples: a hash
    that prefixes the salt, decimal [int], fixed-width dates and ASCII
    [strip]. *)

Module Sample.

Fixpoint after_dollar (h : string) : string :=
  match h with
  | EmptyString => ""
  | String c t => if Ascii.eqb c "$" then t else after_dollar t
  end.

Definition digit (c : ascii) : option Z :=
  let n := Z.of_N (N_of_ascii c) - 48 in
  if (0 <=? n) && (n <=? 9) then Some n else None.

Fixpoint digits (s : string) (acc : Z) : option Z :=
  match s with
  | EmptyString => Some acc
  | String c t => match digit c with
                  | Some n => digits t (10 * acc + n)
                  | None => None
                  end
  end.

Definition int (s : string) : option Z :=
  match s with
  | EmptyString => None
  | String c t => if Ascii.eqb c "-"
                  then (if String.eqb t "" then None else option_map Z.opp (digits t 0))
                  else digits s 0
  end.

Definition strptime (s : string) : option date :=
  match digits (substring 0 4 s) 0, digits (substring 5 2 s) 0,
        digits (substring 8 2 s) 0 with
  | Some y, Some m, Some d =>
      if String.eqb (substring 4 1 s) "-" && String.eqb (substring 7 1 s) "-"
         && (String.length s =? 10)%nat
      then Some (mkdate y m d) else None
  | _, _, _ => None
  end.

Definition digit_char (n : Z) : ascii := ascii_of_N (Z.to_N (48 + n mod 10)).

Definition pad2 (n : Z) : string :=
  String (digit_char (n / 10)) (String (digit_char n) "").

Definition strftime (d : date) : string :=
  String.append (pad2 (year d / 100))
    (String.append (pad2 (year d))
       (String.append "-"
          (String.append (pad2 (month d)) (String.append "-" (pad2 (day d)))))).

Definition is_space (c : ascii) : bool :=
  Ascii.eqb c " " || Ascii.eqb c "009" || Ascii.eqb c "010" || Ascii.eqb c "013".

Fixpoint lstrip (s : string) : string :=
  match s with
  | EmptyString => ""
  | String c t => if is_space c then lstrip t else s
  end.

Fixpoint rstrip (s : string) : string :=
  match s with
  | EmptyString => ""
  | String c t =>
      let t' := rstrip t in
      if is_space c && String.eqb t' "" then "" else String c t'
  end.

Definition exn_name (e : exn) : string :=
  match e with
  | BadRequestKeyError => "400 Bad Request"
  | NotFound => "404 Not Found"
  | ValueError => "invalid literal"
  | ZeroDivisionError => "division by zero"
  | AttributeError => "no such attribute"
  end.

Definition lib : PyLib := {|
  generate_password_hash := fun s p => String.append s (String.append "$" p);
  check_password_hash := fun h p => String.eqb (after_dollar h) p;
  py_int := int;
  strptime_ymd := strptime;
  strftime_ymd := strftime;
  py_strip := fun s => rstrip (lstrip s);
  py_str := exn_name |}.

Definition alice : User.row := User.new 1 "alice@example.org" "s1$wonderland".
Definition root : User.row :=
  User.mk 2 "siddhuplr@gmail.com" None "s2$Sakkara@2025" "admin" true 80 130 90 180.
Definition bob : User.row :=
  User.mk 3 "bob@example.org" (Some "Bob") "s3$builder" "user" false 70 120 90 170.

Definition reading (i owner d : Z) (meal : string) (v : Z) : Reading.row :=
  Reading.mk i owner (mkdate 2025 1 d) "Morning" meal v (Some "idli") (1000 * i).

(** The three readings of the specification's example. *)
Definition three : list Reading.row :=
  [ reading 1 1 5 "Before Food" 100;
    reading 2 1 6 "Before Food" 120;
    reading 3 1 6 "After Food" 200 ].

Definition db : Store := mkStore [alice; root; bob] three.

(** Eleven readings of one user, on eleven days. *)
Definition eleven : list Reading.row :=
  map (fun i => reading i 1 i "Before Food" (90 + i)) [1; 2; 3; 4; 5; 6; 7; 8; 9; 10; 11].

Definition db11 : Store := mkStore [alice; root; bob] eleven.

(** A reading tagged with neither of the two meal relations. *)
Definition fasting : Reading.row := reading 4 1 7 "Fasting" 85.

Definition db_fasting : Store := mkStore [alice; root; bob] (three ++ [fasting]).

Definition get : Request := mkRequest "GET" [] 5000 "s9".

Definition post (f : list (string * string)) : Request := mkRequest "POST" f 5000 "s9".

Definition as_alice (s : Store) : App := mkApp s (Some 1).
Definition as_root (s : Store) : App := mkApp s (Some 2).
Definition anonymous (s : Store) : App := mkApp s None.

End Sample.


(** ** The remaining routes and the start-up code *)

(** [logout_user()]: the user id leaves the session. *)
Definition logout_user : M unit :=
  fun c => (Ok tt, mkCtx (committed c) (session_db c) None (flashed c)).

Definition logout (req : Request) : M Response :=
  login_required (logout_user ;; ret (redirect "login"))%M.

Definition profile (req : Request) : M Response :=
  login_required (ret (render_template profile_html)).

Definition manage_users (req : Request) : M Response :=
  login_required
  (u <- current_user ;;
   if negb (is_admin u) then ret (redirect "dashboard")
   else
     db <- get_db ;;
     ret (render_template (manage_users_html (users db))))%M.

Section Administration.
Context {lib : PyLib}.

Definition reset_user_password (user_id : Z) (req : Request) : M Response :=
  login_required
  (u <- current_user ;;
   if negb (is_admin u) then ret (redirect "dashboard")
   else
     db <- get_db ;;
     match user_get user_id (users db) with
     | None => raise NotFound
     | Some user =>
         let temp_password := "TempPass123!" in
         let reset := User.set_password_hash
                        (generate_password_hash (salt req) temp_password) in
         put_db (mkStore
           (map (fun v => if User.id v =? User.id user then reset v else v) (users db))
           (readings db)) ;;
         commit ;;
         flash (String.append "Password reset for "
                  (String.append (User.email user)
                     (String.append ". Temporary password: " temp_password)))
               "success" ;;
         ret (redirect "manage_users")
     end)%M.

(** [create_admin_user()]: the answer is what it prints. *)
Definition create_admin_user (salt : string) : M (list string) :=
  (let admin_email := "siddhuplr@gmail.com" in
   let admin_password := "Sakkara@2025" in
   db <- get_db ;;
   match user_by_email admin_email (users db) with
   | Some _ => ret []
   | None =>
       let admin :=
         User.mk (next_id (map User.id (users db))) admin_email None
                 (generate_password_hash salt admin_password) "admin" true 80 130 90 180 in
       put_db (mkStore (users db ++ [admin]) (readings db)) ;;
       commit ;;
       ret [String.append "Admin user created: " admin_email]
   end)%M.

(** The start-up block: [create_admin_user()] in an application context
    of its own, on the tables as they are. *)
Definition startup (salt : string) (db : Store) : Store :=
  committed (snd (create_admin_user salt (mkCtx db db None []))).

End Administration.

(** *** The database address

    [str.startswith] is [String.prefix]; [s.replace(old, new, 1)] puts
    [new] in the place of the leftmost occurrence of [old]. *)

Fixpoint drop (n : nat) (s : string) : string :=
  match n, s with
  | O, _ => s
  | S n', String _ t => drop n' t
  | S _, EmptyString => EmptyString
  end.

Fixpoint replace_first (old new s : string) : string :=
  if String.prefix old s then String.append new (drop (String.length old) s)
  else match s with
       | EmptyString => EmptyString
       | String c t => String c (replace_first old new t)
       end.

(** [app.config['SQLALCHEMY_DATABASE_URI']] from the value of the
    [DATABASE_URL] environment variable ([None]: not set). *)
Definition sqlalchemy_database_uri (DATABASE_URL : option string) : string :=
  match DATABASE_URL with
  | Some database_url =>
      if nonempty database_url then
        if String.prefix "postgres://" database_url
        then replace_first "postgres://" "postgresql://" database_url
        else database_url
      else "sqlite:///sakkara_stats.db"
  | None => "sqlite:///sakkara_stats.db"
  end.

(** *** [migrate_db.py]

    The database file, when it exists, holds at most one table named
    [user]; the table is the list of its column names.  SQLite compares
    column names without regard to ASCII case, Python's [in] compares
    them exactly. *)

Inductive DbFile : Type :=
| NoFile
| SqliteFile (user_table : option (list string)).

Definition ascii_lower (c : ascii) : ascii :=
  let n := N_of_ascii c in
  if (N.leb 65 n && N.leb n 90)%bool then ascii_of_N (n + 32) else c.

Fixpoint lower (s : string) : string :=
  match s with
  | EmptyString => EmptyString
  | String c t => String (ascii_lower c) (lower t)
  end.

Definition same_column (a b : string) : bool := String.eqb (lower a) (lower b).

(** [ALTER TABLE user ADD COLUMN name VARCHAR(100)] *)
Definition add_name_column (user_table : option (list string))
    : string + list string :=
  match user_table with
  | None => inl "no such table: user"
  | Some columns =>
      if existsb (same_column "name") columns
      then inl "duplicate column name: name"
      else inr (columns ++ ["name"])
  end.

(** [migrate_database()]: the file afterwards and the lines printed. *)
Definition migrate_database (f : DbFile) : DbFile * list string :=
  match f with
  | NoFile =>
      (NoFile, ["Database does not exist yet. It will be created when the app runs."])
  | SqliteFile user_table =>
      let columns := match user_table with Some cs => cs | None => [] end in
      if negb (existsb (String.eqb "name") columns) then
        match add_name_column user_table with
        | inr columns' =>
            (SqliteFile (Some columns'),
             ["Adding 'name' column to user table..."; "Migration completed successfully!"])
        | inl e =>
            (f, ["Adding 'name' column to user table...";
                 String.append "Migration error: " e])
        end
      else (f, ["Name column already exists. No migration needed."])
  end.

(** ** Invariants of handlers

    [preserves I m]: whatever [m] answers, it takes a context in [I] to a
    context in [I]. *)
Definition preserves {A : Type} (I : Ctx -> Prop) (m : M A) : Prop :=
  forall c, I c -> I (snd (m c)).

(** The database is [db], committed and in the session. *)
Definition untouched (db : Store) (c : Ctx) : Prop :=
  committed c = db /\ session_db c = db.

(** What a profile edit of user [i] may do to a row: anything but change
    its id, email, role or active flag, and nothing at all to the row of
    somebody else. *)
Definition profile_edit (i : Z) (v v' : User.row) : Prop :=
  User.id v' = User.id v /\ User.email v' = User.email v /\
  User.role v' = User.role v /\ User.is_active v' = User.is_active v /\
  (User.id v <> i -> v' = v).

Definition profile_edits (i : Z) (db db' : Store) : Prop :=
  Forall2 (profile_edit i) (users db) (users db') /\ readings db' = readings db.

(** The session belongs to user [i] and both the committed rows and the
    session's rows are profile edits of [db]. *)
Definition editing (i : Z) (db : Store) (c : Ctx) : Prop :=
  user_cookie c = Some i /\ profile_edits i db (committed c) /\
  profile_edits i db (session_db c).

(** A setter of profile columns. *)
Definition keeps_identity (f : User.row -> User.row) : Prop :=
  forall v, User.id (f v) = User.id v /\ User.email (f v) = User.email v /\
            User.role (f v) = User.role v /\ User.is_active (f v) = User.is_active v.

(** User emails are a key. *)
Definition emails_unique (db : Store) : Prop := NoDup (map User.email (users db)).

(** Ascending dates: [a] may stand before [b]. *)
Definition date_le (a b : Reading.row) : Prop :=
  date_compare (Reading.date a) (Reading.date b) <> Gt.

(** No two of the columns have the same name to SQLite. *)
Definition distinct_columns (columns : list string) : Prop := NoDup (map lower columns).

(** * Properties *)

(** ** Arithmetic of the statistics *)

Lemma py_len_cons_nonzero {A : Type} (a : A) (l : list A) : (py_len (a :: l) =? 0) = false.
Proof.
  apply Z.eqb_neq. unfold py_len. simpl List.length. lia.
Qed.

Lemma sugar_mean_or_zero_eq (rs : list Reading.row) :
  sugar_mean_or_zero rs =
  Ok (match rs with [] => PyInt 0 | _ :: _ => PyFloat (float_mean rs) end).
Proof.
  destruct rs as [|r rs]; [reflexivity|].
  unfold sugar_mean_or_zero, py_truediv, float_mean.
  rewrite py_len_cons_nonzero. reflexivity.
Qed.

Lemma round_of_mean (rs : list Reading.row) :
  py_round1 (match rs with [] => PyInt 0 | _ :: _ => PyFloat (float_mean rs) end)
  = rounded_mean rs.
Proof. destruct rs; reflexivity. Qed.

Lemma div_half_even_near (n d : Z) :
  0 <= n -> 0 < d ->
  0 <= div_half_even n d /\ Z.abs (2 * (n - div_half_even n d * d)) <= d.
Proof.
  intros Hn Hd. unfold div_half_even.
  pose proof (Z.div_mod n d ltac:(lia)) as E.
  pose proof (Z.mod_pos_bound n d Hd) as B.
  pose proof (Z.div_pos n d Hn Hd) as Q.
  destruct (Z.compare_spec (2 * (n mod d)) d) as [C|C|C].
  - destruct (Z.even (n / d)); split; nia.
  - split; nia.
  - split; nia.
Qed.

Lemma float_round1_one_decimal (x : spec_float) : one_decimal_of x (float_round1 x).
Proof.
  destruct x as [s|s| |s m e]; try reflexivity.
  unfold one_decimal_of, float_round1, Q_of_float.
  exists (tenths_of m e). unfold tenths_of.
  destruct (0 <=? e) eqn:He.
  - apply Z.leb_le in He.
    assert (P : 0 < 2 ^ e) by (apply Z.pow_pos_nonneg; lia).
    split; [nia|]. split; [reflexivity|].
    apply Qabs_Qle_condition. unfold Qle, Qminus, Qplus, Qmult, Qopp, inject_Z.
    cbn [Qnum Qden].
    set (d := 2 ^ e) in *. nia.
  - apply Z.leb_gt in He.
    assert (P : 0 < 2 ^ (- e)) by (apply Z.pow_pos_nonneg; lia).
    destruct (div_half_even_near (10 * Z.pos m) (2 ^ (- e)) ltac:(lia) P) as [K0 K].
    split; [exact K0|]. split; [reflexivity|].
    apply Qabs_Qle_condition. unfold Qle, Qminus, Qplus, Qmult, Qopp, inject_Z.
    cbn [Qnum Qden]. rewrite !Pos2Z.inj_mul, !Z2Pos.id by exact P.
    set (k := div_half_even (10 * Z.pos m) (2 ^ (- e))) in *.
    set (d := 2 ^ (- e)) in *.
    split; nia.
Qed.

Lemma dashboard_stats_eq (S : list Reading.row) :
  dashboard_stats S =
  Ok (match S with
      | [] => DashboardStats.mk 0 (PyInt 0) 0 0 (PyInt 0) (PyInt 0)
      | r0 :: rest =>
          DashboardStats.mk (py_len S) (PyFloat (float_round1 (float_mean S)))
            (py_min (Reading.sugar_value r0) (sugar_values rest))
            (py_max (Reading.sugar_value r0) (sugar_values rest))
            (rounded_mean (partition_of "Before Food" S))
            (rounded_mean (partition_of "After Food" S))
      end).
Proof.
  destruct S as [|r0 rest]; [reflexivity|].
  unfold dashboard_stats, py_truediv. rewrite py_len_cons_nonzero.
  cbn [rbind]. rewrite !sugar_mean_or_zero_eq. cbn [rbind].
  rewrite !round_of_mean. reflexivity.
Qed.

Lemma admin_stats_eq (db : Store) :
  admin_stats db =
  Ok (AdminStats.mk (py_len (users db)) (py_len (readings db))
        (py_len (filter User.is_active (users db)))
        (rounded_mean (readings db))
        (rounded_mean (partition_of "Before Food" (readings db)))
        (rounded_mean (partition_of "After Food" (readings db)))).
Proof.
  unfold admin_stats. rewrite !sugar_mean_or_zero_eq. cbn [rbind].
  rewrite !round_of_mean. reflexivity.
Qed.

Lemma partition_of_tagged (label : string) (S : list Reading.row) :
  label = "Before Food" \/ label = "After Food" ->
  partition_of label (filter is_tagged S) = partition_of label S.
Proof.
  intros L. unfold partition_of.
  induction S as [|r S IH]; [reflexivity|].
  cbn [filter]. unfold is_tagged at 1, is_before_food, is_after_food.
  destruct L as [-> | ->].
  - destruct (String.eqb (Reading.meal_relation r) "Before Food") eqn:E.
    + cbn [orb filter]. rewrite E. f_equal. exact IH.
    + cbn [orb]. destruct (String.eqb (Reading.meal_relation r) "After Food");
        cbn [filter]; rewrite ?E; exact IH.
  - destruct (String.eqb (Reading.meal_relation r) "After Food") eqn:E.
    + rewrite orb_true_r. cbn [filter]. rewrite E. f_equal. exact IH.
    + rewrite orb_false_r.
      destruct (String.eqb (Reading.meal_relation r) "Before Food");
        cbn [filter]; rewrite ?E; exact IH.
Qed.

Lemma partition_of_untagged (label : string) (S : list Reading.row) :
  label = "Before Food" \/ label = "After Food" ->
  partition_of label (filter (fun r => negb (is_tagged r)) S) = [].
Proof.
  intros L. unfold partition_of.
  induction S as [|r S IH]; [reflexivity|].
  cbn [filter]. unfold is_tagged at 1, is_before_food, is_after_food.
  destruct (String.eqb (Reading.meal_relation r) "Before Food") eqn:B;
  destruct (String.eqb (Reading.meal_relation r) "After Food") eqn:A;
    cbn [orb negb filter]; try exact IH.
  destruct L as [-> | ->]; rewrite ?A, ?B; exact IH.
Qed.

(** C1. Both dashboards compute the two partition means from exactly the
    readings tagged "Before Food" (resp. "After Food"): each is the
    rounded mean of its own partition, so readings tagged otherwise can be
    dropped from the input without changing either mean and form an empty
    partition themselves; the mean of an empty partition is the int 0 and
    the mean of a non-empty one is a float rounded to one decimal place.
    For 100 and 120 before food and 200 after food the dashboard shows
    total 3, min 100, max 200, before_avg 110.0 and after_avg 200.0. *)
Theorem partition_means (S : list Reading.row) (us : list User.row)
    (r1 r2 r3 : Reading.row) :
  (exists st, dashboard_stats S = Ok st /\
     DashboardStats.before_avg st = rounded_mean (partition_of "Before Food" S) /\
     DashboardStats.after_avg st = rounded_mean (partition_of "After Food" S)) /\
  (exists st, admin_stats (mkStore us S) = Ok st /\
     AdminStats.before_avg st = rounded_mean (partition_of "Before Food" S) /\
     AdminStats.after_avg st = rounded_mean (partition_of "After Food" S)) /\
  (partition_of "Before Food" (filter is_tagged S) = partition_of "Before Food" S /\
   partition_of "After Food" (filter is_tagged S) = partition_of "After Food" S /\
   partition_of "Before Food" (filter (fun r => negb (is_tagged r)) S) = [] /\
   partition_of "After Food" (filter (fun r => negb (is_tagged r)) S) = []) /\
  (rounded_mean [] = PyInt 0 /\
   forall r P, exists q, rounded_mean (r :: P) = PyFloat q /\
                         one_decimal_of (float_mean (r :: P)) q) /\
  dashboard_stats [measured "Before Food" 100 r1; measured "Before Food" 120 r2;
                   measured "After Food" 200 r3]
  = Ok (DashboardStats.mk 3 (PyFloat (float64 140)) 100 200
          (PyFloat (float64 110)) (PyFloat (float64 200))).
Proof.
  split; [|split; [|split; [|split]]].
  - rewrite dashboard_stats_eq. eexists. split; [reflexivity|].
    destruct S; split; reflexivity.
  - rewrite admin_stats_eq. eexists. split; [reflexivity|]. split; reflexivity.
  - split; [|split; [|split]].
    + apply partition_of_tagged. now left.
    + apply partition_of_tagged. now right.
    + apply partition_of_untagged. now left.
    + apply partition_of_untagged. now right.
  - split; [reflexivity|].
    intros r P. eexists. split; [reflexivity|]. apply float_round1_one_decimal.
  - vm_compute. reflexivity.
Qed.

(** ** Running a route for a logged-in actor *)

Lemma user_get_id (i : Z) (us : list User.row) (u : User.row) :
  user_get i us = Some u -> User.id u = i /\ In u us.
Proof.
  intros H. apply find_some in H. destruct H as [Hin Hid].
  apply Z.eqb_eq in Hid. auto.
Qed.

Lemma actor_id (a : App) (u : User.row) :
  actor a = Some u -> cookie a = Some (User.id u) /\ In u (users (database a)).
Proof.
  unfold actor. destruct (cookie a) as [i|]; [|discriminate].
  intros H. apply user_get_id in H. destruct H as [<- Hin]. auto.
Qed.

Lemma login_required_actor (a : App) (u : User.row) (h : M Response) (fl : list (string * string)) :
  actor a = Some u -> User.is_active u = true ->
  login_required h (mkCtx (database a) (database a) (cookie a) fl)
  = h (mkCtx (database a) (database a) (cookie a) fl).
Proof.
  unfold actor, login_required, is_authenticated, load_user.
  cbn [user_cookie session_db].
  intros -> ->. reflexivity.
Qed.

Lemma login_required_refuses (a : App) (h : M Response) :
  authenticated a = false ->
  login_required h (mkCtx (database a) (database a) (cookie a) [])
  = (Ok (redirect "login"),
     mkCtx (database a) (database a) (cookie a)
           [("Please log in to access this page.", "message")]).
Proof.
  unfold authenticated, actor, login_required, is_authenticated, load_user.
  cbn [user_cookie session_db].
  intros ->. reflexivity.
Qed.

Lemma current_user_actor (a : App) (u : User.row) (fl : list (string * string)) :
  actor a = Some u ->
  current_user (mkCtx (database a) (database a) (cookie a) fl)
  = (Ok u, mkCtx (database a) (database a) (cookie a) fl).
Proof.
  unfold actor, current_user, load_user. cbn [user_cookie session_db].
  intros ->. reflexivity.
Qed.

Lemma app_eta (a : App) : mkApp (database a) (cookie a) = a.
Proof. destruct a; reflexivity. Qed.

(** Unfolds [serve] on a route guarded by [login_required] for an actor. *)
Ltac serve_as H Hactive :=
  unfold serve;
  match goal with
  | |- context [login_required ?h ?c] => rewrite (login_required_actor _ _ h [] H Hactive)
  end;
  unfold bind at 1; rewrite (current_user_actor _ _ [] H).

(** C6. With no readings the statistics are all zero and nothing is
    divided: [dashboard_stats] of the empty list and [admin_stats] of an
    empty readings table return zeros, both functions return a result on
    every input (no [ZeroDivisionError]), and the two dashboards render
    these zeros for an active user without readings and for an active
    admin over an empty table. *)
Theorem stats_empty_safe :
  dashboard_stats [] = Ok (DashboardStats.mk 0 (PyInt 0) 0 0 (PyInt 0) (PyInt 0)) /\
  (forall us, admin_stats (mkStore us []) =
     Ok (AdminStats.mk (py_len us) 0 (py_len (filter User.is_active us))
           (PyInt 0) (PyInt 0) (PyInt 0))) /\
  (forall S, exists st, dashboard_stats S = Ok st) /\
  (forall db, exists st, admin_stats db = Ok st) /\
  (forall a req u,
     actor a = Some u -> User.is_active u = true -> is_admin u = false ->
     filter_by_user_id (User.id u) (readings (database a)) = [] ->
     serve (dashboard req) a =
     mkServed (render_template
                 (dashboard_html [] (DashboardStats.mk 0 (PyInt 0) 0 0 (PyInt 0) (PyInt 0))))
              [] a) /\
  (forall a req u,
     actor a = Some u -> User.is_active u = true -> is_admin u = true ->
     readings (database a) = [] ->
     serve (admin_dashboard req) a =
     mkServed (render_template
                 (admin_dashboard_html
                    (AdminStats.mk (py_len (users (database a))) 0
                       (py_len (filter User.is_active (users (database a))))
                       (PyInt 0) (PyInt 0) (PyInt 0))))
              [] a).
Proof.
  split; [reflexivity|]. split; [intros us; reflexivity|].
  split; [intros S; rewrite dashboard_stats_eq; eauto|].
  split; [intros db; rewrite admin_stats_eq; eauto|].
  split.
  - intros a req u Ha Hactive Hadm Hnone.
    unfold dashboard. serve_as Ha Hactive. rewrite Hadm.
    unfold bind, get_db, lift, ret, list_readings. cbn [session_db].
    rewrite Hnone. cbn. rewrite app_eta. reflexivity.
  - intros a req u Ha Hactive Hadm Hnone.
    unfold admin_dashboard. serve_as Ha Hactive. rewrite Hadm.
    unfold bind, get_db, lift, ret. cbn [session_db negb].
    rewrite admin_stats_eq, Hnone. cbn. rewrite app_eta. reflexivity.
Qed.

Lemma stats_empty_safe_witness :
  serve (dashboard Sample.get) (Sample.as_alice (mkStore (users Sample.db) [])) =
    mkServed (render_template
                (dashboard_html [] (DashboardStats.mk 0 (PyInt 0) 0 0 (PyInt 0) (PyInt 0))))
             [] (Sample.as_alice (mkStore (users Sample.db) [])) /\
  serve (admin_dashboard Sample.get) (Sample.as_root (mkStore (users Sample.db) [])) =
    mkServed (render_template
                (admin_dashboard_html (AdminStats.mk 3 0 2 (PyInt 0) (PyInt 0) (PyInt 0))))
             [] (Sample.as_root (mkStore (users Sample.db) [])).
Proof.
  destruct stats_empty_safe as (_ & _ & _ & _ & Huser & Hadmin).
  split.
  - apply (Huser (Sample.as_alice (mkStore (users Sample.db) [])) Sample.get Sample.alice);
      reflexivity.
  - apply (Hadmin (Sample.as_root (mkStore (users Sample.db) [])) Sample.get Sample.root);
      reflexivity.
Defined.

(** ** Deleting a reading *)

Lemma reading_get_id (i : Z) (rs : list Reading.row) (r : Reading.row) :
  reading_get i rs = Some r -> Reading.id r = i /\ In r rs.
Proof.
  intros H. apply find_some in H. destruct H as [Hin Hid].
  apply Z.eqb_eq in Hid. auto.
Qed.

Lemma reading_get_deleted (i : Z) (rs : list Reading.row) :
  reading_get i (filter (fun r => negb (Reading.id r =? i)) rs) = None.
Proof.
  unfold reading_get.
  induction rs as [|r rs IH]; [reflexivity|].
  cbn [filter]. destruct (Reading.id r =? i) eqn:E; cbn [negb]; [exact IH|].
  cbn [find]. rewrite E. exact IH.
Qed.

Lemma serve_delete_reading (a : App) (req : Request) (reading_id : Z) (u : User.row) :
  actor a = Some u -> User.is_active u = true ->
  serve (delete_reading reading_id req) a =
  match reading_get reading_id (readings (database a)) with
  | None => mkServed (http_error 404) [] a
  | Some r =>
      if negb (is_admin u) && negb (Reading.user_id r =? User.id u)
      then mkServed (redirect "history") [("Unauthorized action.", "error")] a
      else mkServed (redirect (if is_admin u then "manage_readings" else "history"))
             [("Reading deleted successfully!", "success")]
             (mkApp (mkStore (users (database a))
                       (filter (fun r' => negb (Reading.id r' =? Reading.id r))
                               (readings (database a))))
                    (cookie a))
  end.
Proof.
  intros Ha Hactive. unfold serve, delete_reading.
  rewrite (login_required_actor _ _ _ [] Ha Hactive).
  unfold bind at 1, get_db. cbn [session_db].
  destruct (reading_get reading_id (readings (database a))) as [r|].
  - unfold bind at 1. rewrite (current_user_actor _ _ [] Ha). cbv beta iota.
    destruct (negb (is_admin u) && negb (Reading.user_id r =? User.id u)).
    + unfold bind, flash, ret. cbn. rewrite app_eta. reflexivity.
    + unfold bind, put_db, commit, flash, ret. cbn -[is_admin].
      destruct (is_admin u); reflexivity.
  - unfold raise. cbn. rewrite app_eta. reflexivity.
Qed.

(** C2. For a logged-in, active actor, [delete_reading] answers 404 (NotFound)
    when no reading has the id, leaving the application as it was; when
    the actor is neither an admin nor the owner it flashes "Unauthorized
    action." and leaves the application as it was; otherwise the row is
    deleted and committed: no reading with that id is left, every other
    reading and every user row is kept. *)
Theorem delete_reading_outcomes (a : App) (req : Request) (reading_id : Z) (u : User.row) :
  actor a = Some u -> User.is_active u = true ->
  let s := serve (delete_reading reading_id req) a in
  match reading_get reading_id (readings (database a)) with
  | None => s = mkServed (http_error 404) [] a
  | Some r =>
      if may_delete u r then
        reading_get reading_id (readings (database (app_after s))) = None /\
        readings (database (app_after s))
          = filter (fun r' => negb (Reading.id r' =? reading_id)) (readings (database a)) /\
        users (database (app_after s)) = users (database a) /\
        cookie (app_after s) = cookie a /\
        messages s = [("Reading deleted successfully!", "success")]
      else
        s = mkServed (redirect "history") [("Unauthorized action.", "error")] a
  end.
Proof.
  intros Ha Hactive s. subst s. rewrite (serve_delete_reading _ _ _ _ Ha Hactive).
  destruct (reading_get reading_id (readings (database a))) as [r|] eqn:Hr;
    [|reflexivity].
  apply reading_get_id in Hr. destruct Hr as [Hid _]. rewrite Hid.
  unfold may_delete.
  destruct (is_admin u), (Reading.user_id r =? User.id u);
    cbn [negb andb orb app_after database readings users cookie messages];
    try reflexivity;
    (split; [apply reading_get_deleted | repeat split]).
Qed.

Lemma delete_reading_outcomes_witness :
  actor (Sample.as_alice Sample.db) = Some Sample.alice /\
  reading_get 1 (readings (database (app_after
    (serve (delete_reading 1 Sample.get) (Sample.as_alice Sample.db))))) = None.
Proof.
  split; [reflexivity|].
  exact (proj1 (delete_reading_outcomes (Sample.as_alice Sample.db) Sample.get 1
                  Sample.alice eq_refl eq_refl)).
Defined.

(** An active user who owns no reading of the table cannot delete one,
    the admin can delete any, and a user whose account is switched off
    is sent to the login page. *)
Example delete_reading_by_others :
  let db := mkStore (users Sample.db ++ [User.new 4 "carol@example.org" "s4$tea"])
                    Sample.three in
  serve (delete_reading 1 Sample.get) (mkApp db (Some 4))
    = mkServed (redirect "history") [("Unauthorized action.", "error")]
               (mkApp db (Some 4)) /\
  readings (database (app_after (serve (delete_reading 1 Sample.get)
                                       (Sample.as_root Sample.db))))
    = tl Sample.three /\
  serve (delete_reading 1 Sample.get) (mkApp Sample.db (Some 3))
    = mkServed (redirect "login") [("Please log in to access this page.", "message")]
               (mkApp Sample.db (Some 3)).
Proof. repeat split. Qed.

(** ** Queries: ordering and joining *)

Section OrderBy.
Context {A : Type} (leb : A -> A -> bool).

Lemma insert_by_perm (x : A) (l : list A) : Permutation (x :: l) (insert_by leb x l).
Proof.
  induction l as [|y l IH]; cbn [insert_by]; [reflexivity|].
  destruct (leb x y); [reflexivity|].
  rewrite perm_swap. apply perm_skip. exact IH.
Qed.

Lemma order_by_perm (l : list A) : Permutation l (order_by leb l).
Proof.
  unfold order_by. induction l as [|x l IH]; cbn [fold_right]; [constructor|].
  rewrite <- insert_by_perm. apply perm_skip. exact IH.
Qed.

Lemma order_by_In (l : list A) (x : A) : In x (order_by leb l) <-> In x l.
Proof.
  split; apply Permutation_in; [symmetry|]; apply order_by_perm.
Qed.

Lemma order_by_length (l : list A) : List.length (order_by leb l) = List.length l.
Proof. symmetry. apply Permutation_length, order_by_perm. Qed.

Hypothesis leb_total : forall a b, leb a b = false -> leb b a = true.

Lemma insert_by_sorted (x : A) (l : list A) : Sorted (fun a b => leb a b = true) l ->
  Sorted (fun a b => leb a b = true) (insert_by leb x l).
Proof.
  induction 1 as [|y l Hs IH Hhd]; cbn [insert_by].
  - repeat constructor.
  - destruct (leb x y) eqn:E.
    + constructor; [constructor; assumption|]. constructor. exact E.
    + constructor; [exact IH|].
      destruct Hhd as [|z l Hyz]; cbn [insert_by].
      * constructor. apply leb_total, E.
      * destruct (leb x z); constructor; [apply leb_total, E | exact Hyz].
Qed.

Lemma order_by_sorted (l : list A) :
  Sorted (fun a b => leb a b = true) (order_by leb l).
Proof.
  unfold order_by. induction l as [|x l IH]; cbn [fold_right].
  - constructor.
  - apply insert_by_sorted, IH.
Qed.
End OrderBy.

Lemma join_user_In (us : list User.row) (rs : list Reading.row) (r : Reading.row) :
  In r (join_user us rs) <->
  In r rs /\ exists u, In u us /\ User.id u = Reading.user_id r.
Proof.
  unfold join_user. rewrite in_flat_map. split.
  - intros (r0 & Hr0 & Hin). apply in_flat_map in Hin.
    destruct Hin as (u & Hu & Hin).
    destruct (User.id u =? Reading.user_id r0) eqn:E; [|contradiction].
    destruct Hin as [<-|[]]. apply Z.eqb_eq in E. eauto.
  - intros (Hr & u & Hu & E). exists r. split; [exact Hr|].
    apply in_flat_map. exists u. split; [exact Hu|].
    apply Z.eqb_eq in E. rewrite E. now left.
Qed.

Lemma join_user_owner (us : list User.row) (rs : list Reading.row) (r : Reading.row) :
  In r (join_user us rs) -> exists owner, owner_of us r = Some owner.
Proof.
  intros H. apply join_user_In in H. destruct H as (_ & u & Hu & E).
  unfold owner_of, user_get.
  destruct (find (fun v => User.id v =? Reading.user_id r) us) as [o|] eqn:F; [eauto|].
  apply (find_none _ _ F) in Hu. apply Z.eqb_neq in Hu. contradiction.
Qed.

(** ** The chart export *)

Section Chart.
Context {lib : PyLib}.

Lemma chart_loop_eq (admin : bool) (us : list User.row) (rs : list Reading.row) :
  (admin = true -> forall r, In r rs -> exists owner, owner_of us r = Some owner) ->
  forall before after,
  chart_loop admin us rs before after =
  Ok (before ++ map (chart_point admin us) (filter is_before_food rs),
      after ++ map (chart_point admin us) (filter (fun r => negb (is_before_food r)) rs)).
Proof.
  induction rs as [|r rs IH]; intros Hown before after.
  - cbn. rewrite !app_nil_r. reflexivity.
  - cbn [chart_loop].
    assert (E : (if admin
                 then match user_get (Reading.user_id r) us with
                      | Some owner => Ok (Some (User.email owner))
                      | None => Raise AttributeError
                      end
                 else Ok None)
                = Ok (if admin then option_map User.email (owner_of us r) else None)).
    { destruct admin; [|reflexivity].
      destruct (Hown eq_refl r (or_introl eq_refl)) as [o Ho].
      unfold owner_of in *. rewrite Ho. reflexivity. }
    rewrite E. cbn [rbind filter].
    assert (Hown' : admin = true ->
                    forall r', In r' rs -> exists owner, owner_of us r' = Some owner).
    { intros Ht r' Hr'. apply (Hown Ht). now right. }
    destruct (is_before_food r); cbn [negb map]; rewrite (IH Hown');
      rewrite <- ?app_assoc; reflexivity.
Qed.

Lemma chart_readings_owner (u : User.row) (db : Store) :
  is_admin u = true ->
  forall r, In r (chart_readings u db) -> exists owner, owner_of (users db) r = Some owner.
Proof.
  intros Hadm r. unfold chart_readings. rewrite Hadm, order_by_In.
  apply join_user_owner.
Qed.

Lemma serve_chart_data (a : App) (req : Request) (u : User.row) :
  actor a = Some u -> User.is_active u = true ->
  serve (chart_data req) a =
  let rs := chart_readings u (database a) in
  let pt := chart_point (is_admin u) (users (database a)) in
  mkServed
    (jsonify (mkChartData
       (map pt (filter is_before_food rs))
       (map pt (filter (fun r => negb (is_before_food r)) rs))
       (User.before_food_min u, User.before_food_max u)
       (User.after_food_min u, User.after_food_max u)))
    [] a.
Proof.
  intros Ha Hactive. unfold chart_data. serve_as Ha Hactive. cbv beta iota.
  unfold bind, get_db, lift, ret. cbn [session_db].
  rewrite chart_loop_eq.
  - cbn. rewrite app_eta. reflexivity.
  - intros Hadm. apply chart_readings_owner. exact Hadm.
Qed.

End Chart.

Section ChartClaims.
Context {lib : PyLib}.

(** C3. For an active actor whose role is not admin every data point of the
    [chart_data] response, in both sequences and the actor's own readings
    included, has a null [user_email]; for an admin every data point is
    the point of a stored reading and carries the email of the user that
    reading belongs to. *)
Theorem chart_owner_email_gate (a : App) (req : Request) (u : User.row) :
  actor a = Some u -> User.is_active u = true ->
  exists payload,
    serve (chart_data req) a = mkServed (jsonify payload) [] a /\
    if is_admin u then
      Forall (fun p => exists r owner,
                In r (readings (database a)) /\
                owner_of (users (database a)) r = Some owner /\
                p = chart_point true (users (database a)) r /\
                user_email p = Some (User.email owner))
             (before_food payload ++ after_food payload)
    else
      Forall (fun p => user_email p = None) (before_food payload ++ after_food payload).
Proof.
  intros Ha Hactive. rewrite (serve_chart_data _ _ _ Ha Hactive). cbv zeta.
  eexists. split; [reflexivity|]. cbn [before_food after_food].
  destruct (is_admin u) eqn:Hadm.
  - apply Forall_app. split; apply Forall_map, Forall_forall; intros r Hr;
      apply filter_In in Hr; destruct Hr as [Hr _];
      destruct (chart_readings_owner u (database a) Hadm r Hr) as [o Ho];
      unfold chart_readings in Hr; rewrite Hadm in Hr;
      apply order_by_In, join_user_In in Hr; destruct Hr as [Hr _];
      exists r, o; (split; [exact Hr|]); (split; [exact Ho|]);
      (split; [reflexivity|]); cbn; rewrite Ho; reflexivity.
  - apply Forall_app. split; apply Forall_map, Forall_forall; intros r _; reflexivity.
Qed.

(** C10. For an active actor [chart_data] files every selected reading that is not tagged
    exactly "Before Food" under [after_food], so a reading with an unknown
    meal relation shows up there; the two sequences together hold one
    point for each selected reading, and every reading of the actor is
    selected. *)
Theorem chart_unknown_meal_is_after_food (a : App) (req : Request) (u : User.row) :
  actor a = Some u -> User.is_active u = true ->
  exists payload,
    serve (chart_data req) a = mkServed (jsonify payload) [] a /\
    let rs := chart_readings u (database a) in
    let pt := chart_point (is_admin u) (users (database a)) in
    before_food payload = map pt (filter is_before_food rs) /\
    after_food payload = map pt (filter (fun r => negb (is_before_food r)) rs) /\
    (forall r, In r rs -> Reading.meal_relation r <> "Before Food" ->
               In (pt r) (after_food payload)) /\
    (forall r, In r (readings (database a)) -> Reading.user_id r = User.id u ->
               In r rs /\ In (pt r) (before_food payload ++ after_food payload)) /\
    (List.length (before_food payload) + List.length (after_food payload)
     = List.length rs)%nat.
Proof.
  intros Ha Hactive. rewrite (serve_chart_data _ _ _ Ha Hactive). cbv zeta.
  eexists. split; [reflexivity|]. cbn [before_food after_food].
  split; [reflexivity|]. split; [reflexivity|].
  assert (Hcover : forall r, In r (chart_readings u (database a)) ->
            In (chart_point (is_admin u) (users (database a)) r)
               (map (chart_point (is_admin u) (users (database a)))
                    (filter is_before_food (chart_readings u (database a))) ++
                map (chart_point (is_admin u) (users (database a)))
                    (filter (fun r => negb (is_before_food r))
                            (chart_readings u (database a))))).
  { intros r Hr. apply in_or_app.
    destruct (is_before_food r) eqn:B; [left|right];
      apply in_map, filter_In; rewrite ?B; auto. }
  split; [|split].
  - intros r Hr Hmeal. apply in_map, filter_In. split; [exact Hr|].
    unfold is_before_food.
    destruct (String.eqb_spec (Reading.meal_relation r) "Before Food");
      [contradiction|reflexivity].
  - intros r Hr Hown.
    assert (Hsel : In r (chart_readings u (database a))).
    { unfold chart_readings. destruct (is_admin u); apply order_by_In.
      - apply join_user_In. split; [exact Hr|].
        exists u. split; [apply (actor_id _ _ Ha) | symmetry; exact Hown].
      - apply filter_In. split; [exact Hr|]. apply Z.eqb_eq. exact Hown. }
    split; [exact Hsel | apply Hcover, Hsel].
  - rewrite !length_map. clear Hcover.
    induction (chart_readings u (database a)) as [|r rs IH]; [reflexivity|].
    cbn [filter]. destruct (is_before_food r); cbn [negb List.length]; lia.
Qed.

End ChartClaims.

Lemma chart_owner_email_gate_witness :
  actor (Sample.as_alice Sample.db) = Some Sample.alice /\
  exists payload,
    serve (@chart_data Sample.lib Sample.get) (Sample.as_alice Sample.db)
      = mkServed (jsonify payload) [] (Sample.as_alice Sample.db) /\
    Forall (fun p => user_email p = None) (before_food payload ++ after_food payload).
Proof.
  split; [reflexivity|].
  exact (@chart_owner_email_gate Sample.lib (Sample.as_alice Sample.db) Sample.get
           Sample.alice eq_refl eq_refl).
Defined.

Lemma chart_unknown_meal_is_after_food_witness :
  actor (Sample.as_alice Sample.db_fasting) = Some Sample.alice /\
  exists payload,
    serve (@chart_data Sample.lib Sample.get) (Sample.as_alice Sample.db_fasting)
      = mkServed (jsonify payload) [] (Sample.as_alice Sample.db_fasting) /\
    In (@chart_point Sample.lib false (users Sample.db_fasting) Sample.fasting)
       (after_food payload).
Proof.
  split; [reflexivity|].
  destruct (@chart_unknown_meal_is_after_food Sample.lib
              (Sample.as_alice Sample.db_fasting) Sample.get Sample.alice eq_refl eq_refl)
    as (payload & Hs & _ & _ & Hafter & _).
  exists payload. split; [exact Hs|].
  apply Hafter.
  - vm_compute. tauto.
  - discriminate.
Defined.

(** ** Accounts: signup, login, deactivation *)

Lemma next_id_bound (ids : list Z) (i : Z) : In i ids -> i < next_id ids.
Proof.
  unfold next_id. induction ids as [|j ids IH]; [contradiction|].
  cbn [fold_right]. intros [->|H]; [lia|]. specialize (IH H). lia.
Qed.

Lemma next_id_fresh (ids : list Z) : ~ In (next_id ids) ids.
Proof. intros H. apply next_id_bound in H. lia. Qed.

Lemma user_by_email_registered (e : string) (us : list User.row) :
  email_registered e us = match user_by_email e us with Some _ => true | None => false end.
Proof.
  unfold email_registered, user_by_email.
  induction us as [|u us IH]; [reflexivity|].
  cbn [existsb find]. destruct (String.eqb (User.email u) e); [reflexivity|exact IH].
Qed.

Lemma find_map_same {A : Type} (p : A -> bool) (g : A -> A) (l : list A) :
  (forall x, p (g x) = p x) -> find p (map g l) = option_map g (find p l).
Proof.
  intros Hp. induction l as [|x l IH]; [reflexivity|].
  cbn [map find]. rewrite Hp. destruct (p x); [reflexivity|exact IH].
Qed.

Section Accounts.
Context {lib : PyLib}.

Lemma serve_signup (a : App) (req : Request) (email password : string) :
  method req = "POST" ->
  form_get "email" (form req) = Some email ->
  form_get "password" (form req) = Some password ->
  serve (signup req) a =
  match user_by_email email (users (database a)) with
  | Some _ => mkServed (render_template signup_html) [("Email already exists.", "error")] a
  | None =>
      mkServed (redirect "login") [("Account created successfully! Please login.", "success")]
        (mkApp (mkStore
                  (users (database a) ++
                   [User.new (next_id (map User.id (users (database a)))) email
                      (generate_password_hash (salt req) password)])
                  (readings (database a)))
               (cookie a))
  end.
Proof.
  intros Hm He Hp. unfold serve, signup, form_item. rewrite Hm, He, Hp.
  cbn [String.eqb Ascii.eqb Bool.eqb]. unfold bind at 1 2 3, ret at 1 2, get_db.
  cbn [session_db].
  destruct (user_by_email email (users (database a))).
  - unfold bind, flash, ret. cbn. rewrite app_eta. reflexivity.
  - unfold bind, put_db, commit, flash, ret. cbn. reflexivity.
Qed.

(** C4. A signup (POST with an email and a password) for an email that
    is already registered flashes "Email already exists." and leaves the
    application, hence the user rows, as it was.  For a fresh email it
    appends exactly one row to the users table, under a key no row had:
    role "user", active, default ranges, no name, and as credential the
    output of [generate_password_hash] on the password. *)
Theorem signup_outcomes (a : App) (req : Request) (email password : string) :
  method req = "POST" ->
  form_get "email" (form req) = Some email ->
  form_get "password" (form req) = Some password ->
  let s := serve (signup req) a in
  if email_registered email (users (database a)) then
    s = mkServed (render_template signup_html) [("Email already exists.", "error")] a
  else
    exists i,
      ~ In i (map User.id (users (database a))) /\
      users (database (app_after s)) =
        users (database a) ++
        [User.mk i email None (generate_password_hash (salt req) password)
                 "user" true 80 130 90 180] /\
      readings (database (app_after s)) = readings (database a) /\
      cookie (app_after s) = cookie a /\
      response s = redirect "login".
Proof.
  intros Hm He Hp s. subst s. rewrite (serve_signup _ _ _ _ Hm He Hp).
  rewrite user_by_email_registered.
  destruct (user_by_email email (users (database a))); [reflexivity|].
  exists (next_id (map User.id (users (database a)))).
  split; [apply next_id_fresh|]. repeat split.
Qed.

Lemma serve_login (a : App) (req : Request) (email password : string) :
  method req = "POST" ->
  form_get "email" (form req) = Some email ->
  form_get "password" (form req) = Some password ->
  serve (login req) a =
  match user_by_email email (users (database a)) with
  | Some user =>
      if check_password_hash (User.password_hash user) password then
        if User.is_active user then
          mkServed (redirect (if is_admin user then "admin_dashboard" else "dashboard")) []
                   (mkApp (database a) (Some (User.id user)))
        else
          mkServed (render_template login_html)
                   [("Your account is deactivated. Please contact admin.", "error")] a
      else
        mkServed (render_template login_html) [("Invalid email or password.", "error")] a
  | None =>
      mkServed (render_template login_html) [("Invalid email or password.", "error")] a
  end.
Proof.
  intros Hm He Hp. unfold serve, login, form_item. rewrite Hm, He, Hp.
  cbn [String.eqb Ascii.eqb Bool.eqb]. unfold bind at 1 2 3 4, ret at 1 2, get_db.
  cbn [session_db].
  destruct (user_by_email email (users (database a))) as [user|].
  - destruct (check_password_hash (User.password_hash user) password).
    + destruct (User.is_active user) eqn:Hact.
      * unfold bind, login_user. rewrite Hact.
        destruct (is_admin user); cbn; reflexivity.
      * unfold bind, flash, ret. cbn. rewrite app_eta. reflexivity.
    + unfold bind, flash, ret. cbn. rewrite app_eta. reflexivity.
  - unfold bind, flash, ret. cbn. rewrite app_eta. reflexivity.
Qed.

(** C5. A login (POST with an email and a password) flashes "Invalid
    email or password." and changes nothing when no user has the email or
    the password does not verify against the stored hash; when the user
    is found and the password verifies but the account is inactive it
    flashes the deactivation notice and changes nothing; only in the
    remaining case, an active user whose password verifies, the session
    is bound to that user's id. *)
Theorem login_outcomes (a : App) (req : Request) (email password : string) :
  method req = "POST" ->
  form_get "email" (form req) = Some email ->
  form_get "password" (form req) = Some password ->
  let s := serve (login req) a in
  match user_by_email email (users (database a)) with
  | None =>
      s = mkServed (render_template login_html) [("Invalid email or password.", "error")] a
  | Some user =>
      if negb (check_password_hash (User.password_hash user) password) then
        s = mkServed (render_template login_html) [("Invalid email or password.", "error")] a
      else if negb (User.is_active user) then
        s = mkServed (render_template login_html)
              [("Your account is deactivated. Please contact admin.", "error")] a
      else
        cookie (app_after s) = Some (User.id user) /\
        database (app_after s) = database a /\
        messages s = [] /\
        response s = redirect (if is_admin user then "admin_dashboard" else "dashboard")
  end.
Proof.
  intros Hm He Hp s. subst s. rewrite (serve_login _ _ _ _ Hm He Hp).
  destruct (user_by_email email (users (database a))) as [user|]; [|reflexivity].
  destruct (check_password_hash (User.password_hash user) password); cbn [negb];
    [|reflexivity].
  destruct (User.is_active user); cbn [negb]; [|reflexivity].
  repeat split.
Qed.

End Accounts.

Lemma signup_outcomes_witness :
  let req := Sample.post [("email", "carol@example.org"); ("password", "tea")] in
  let s := serve (@signup Sample.lib req) (Sample.anonymous Sample.db) in
  exists i,
    ~ In i (map User.id (users Sample.db)) /\
    users (database (app_after s)) =
      users Sample.db ++
      [User.mk i "carol@example.org" None "s9$tea" "user" true 80 130 90 180] /\
    readings (database (app_after s)) = readings Sample.db /\
    cookie (app_after s) = None /\
    response s = redirect "login".
Proof.
  exact (@signup_outcomes Sample.lib (Sample.anonymous Sample.db)
           (Sample.post [("email", "carol@example.org"); ("password", "tea")])
           "carol@example.org" "tea" eq_refl eq_refl eq_refl).
Defined.

(** Signing up again with a registered email changes nothing. *)
Example signup_duplicate_email :
  serve (@signup Sample.lib
           (Sample.post [("email", "alice@example.org"); ("password", "tea")]))
        (Sample.anonymous Sample.db)
  = mkServed (render_template signup_html) [("Email already exists.", "error")]
             (Sample.anonymous Sample.db).
Proof. reflexivity. Qed.

Lemma login_outcomes_witness :
  let req := Sample.post [("email", "alice@example.org"); ("password", "wonderland")] in
  let s := serve (@login Sample.lib req) (Sample.anonymous Sample.db) in
  cookie (app_after s) = Some 1 /\
  database (app_after s) = Sample.db /\
  messages s = [] /\
  response s = redirect "dashboard".
Proof.
  exact (@login_outcomes Sample.lib (Sample.anonymous Sample.db)
           (Sample.post [("email", "alice@example.org"); ("password", "wonderland")])
           "alice@example.org" "wonderland" eq_refl eq_refl eq_refl).
Defined.

(** A wrong password, an unknown email and a deactivated account with the
    right password. *)
Example login_failures :
  serve (@login Sample.lib
           (Sample.post [("email", "alice@example.org"); ("password", "looking-glass")]))
        (Sample.anonymous Sample.db)
    = mkServed (render_template login_html) [("Invalid email or password.", "error")]
               (Sample.anonymous Sample.db) /\
  serve (@login Sample.lib
           (Sample.post [("email", "Alice@example.org"); ("password", "wonderland")]))
        (Sample.anonymous Sample.db)
    = mkServed (render_template login_html) [("Invalid email or password.", "error")]
               (Sample.anonymous Sample.db) /\
  serve (@login Sample.lib
           (Sample.post [("email", "bob@example.org"); ("password", "builder")]))
        (Sample.anonymous Sample.db)
    = mkServed (render_template login_html)
               [("Your account is deactivated. Please contact admin.", "error")]
               (Sample.anonymous Sample.db).
Proof. repeat split. Qed.

(** *** Deactivation *)

Lemma serve_toggle_user (a : App) (req : Request) (user_id : Z) (adm user : User.row) :
  actor a = Some adm -> User.is_active adm = true -> is_admin adm = true ->
  user_get user_id (users (database a)) = Some user ->
  app_after (serve (toggle_user user_id req) a) =
  mkApp (mkStore
           (map (fun v => if User.id v =? User.id user
                          then User.set_is_active (negb (User.is_active user)) v else v)
                (users (database a)))
           (readings (database a)))
        (cookie a).
Proof.
  intros Ha Hactive Hadm Hget. unfold toggle_user. serve_as Ha Hactive. cbv beta iota.
  rewrite Hadm. cbn [negb]. unfold bind at 1, get_db. cbn [session_db].
  rewrite Hget. unfold bind, put_db, commit, flash, ret. cbn. reflexivity.
Qed.

(** After an active admin has switched an active account off, a login
    with the account's email and the right password is refused as
    deactivated. *)
Lemma login_after_deactivation {lib : PyLib}
    (a : App) (req0 req : Request) (adm user : User.row) (password : string) :
  actor a = Some adm -> User.is_active adm = true -> is_admin adm = true ->
  user_get (User.id user) (users (database a)) = Some user ->
  user_by_email (User.email user) (users (database a)) = Some user ->
  User.is_active user = true ->
  check_password_hash (User.password_hash user) password = true ->
  method req = "POST" ->
  form_get "email" (form req) = Some (User.email user) ->
  form_get "password" (form req) = Some password ->
  let a' := app_after (serve (toggle_user (User.id user) req0) a) in
  serve (login req) a' =
  mkServed (render_template login_html)
           [("Your account is deactivated. Please contact admin.", "error")] a'.
Proof.
  intros Ha Hactive Hadm Hget Hmail Hact Hpw Hm He Hp a'. subst a'.
  rewrite (serve_toggle_user _ _ _ _ _ Ha Hactive Hadm Hget).
  rewrite (serve_login _ _ _ _ Hm He Hp). cbn [database users].
  unfold user_by_email in *. rewrite find_map_same.
  - rewrite Hmail. cbn [option_map]. rewrite Z.eqb_refl, Hact.
    cbn [negb User.set_is_active User.password_hash User.is_active].
    rewrite Hpw. reflexivity.
  - intros v. destruct (User.id v =? User.id user); reflexivity.
Qed.

(** Toggling twice gives the active flag its first value back. *)
Example toggle_twice :
  let a1 := app_after (serve (toggle_user 1 Sample.get) (Sample.as_root Sample.db)) in
  let a2 := app_after (serve (toggle_user 1 Sample.get) a1) in
  option_map User.is_active (user_get 1 (users (database a1))) = Some false /\
  a2 = Sample.as_root Sample.db.
Proof. split; reflexivity. Qed.

(** ** Adding and listing readings *)

Lemma serve_history (a : App) (req : Request) (u : User.row) :
  actor a = Some u -> User.is_active u = true -> is_admin u = false ->
  serve (history req) a =
  mkServed (render_template (history_html (list_readings (User.id u) (database a)))) [] a.
Proof.
  intros Ha Hactive Hadm. unfold history. serve_as Ha Hactive. cbv beta iota. rewrite Hadm.
  unfold bind, get_db, ret. cbn. rewrite app_eta. reflexivity.
Qed.

Lemma serve_dashboard (a : App) (req : Request) (u : User.row) :
  actor a = Some u -> User.is_active u = true -> is_admin u = false ->
  exists stats,
    dashboard_stats (filter_by_user_id (User.id u) (readings (database a))) = Ok stats /\
    serve (dashboard req) a =
    mkServed (render_template
                (dashboard_html (limit 10 (list_readings (User.id u) (database a))) stats))
             [] a.
Proof.
  intros Ha Hactive Hadm. unfold dashboard. serve_as Ha Hactive. cbv beta iota. rewrite Hadm.
  unfold bind, get_db, lift, ret. cbn [session_db].
  rewrite dashboard_stats_eq. eexists. split; [reflexivity|].
  cbn. rewrite app_eta. reflexivity.
Qed.

Lemma serve_manage_readings (a : App) (req : Request) (u : User.row) :
  actor a = Some u -> User.is_active u = true -> is_admin u = true ->
  serve (manage_readings req) a =
  mkServed (render_template
              (manage_readings_html
                 (order_by date_desc_created_desc
                    (join_user (users (database a)) (readings (database a))))))
           [] a.
Proof.
  intros Ha Hactive Hadm. unfold manage_readings. serve_as Ha Hactive. cbv beta iota.
  rewrite Hadm.
  unfold bind, get_db, ret. cbn. rewrite app_eta. reflexivity.
Qed.

Section Readings.
Context {lib : PyLib}.

Lemma serve_add_reading (a : App) (req : Request) (u : User.row)
    (date_s time_of_day meal_relation sugar_s food_eaten : string) (d : date) (v : Z) :
  actor a = Some u -> User.is_active u = true ->
  form_get "date" (form req) = Some date_s -> strptime_ymd date_s = Some d ->
  form_get "time_of_day" (form req) = Some time_of_day ->
  form_get "meal_relation" (form req) = Some meal_relation ->
  form_get "sugar_value" (form req) = Some sugar_s -> py_int sugar_s = Some v ->
  form_get "food_eaten" (form req) = Some food_eaten ->
  serve (add_reading req) a =
  mkServed (redirect "dashboard") [("Reading added successfully!", "success")]
    (mkApp (mkStore (users (database a))
              (readings (database a) ++
               [Reading.mk (next_id (map Reading.id (readings (database a)))) (User.id u)
                  d time_of_day meal_relation v (Some food_eaten) (utcnow req)]))
           (cookie a)).
Proof.
  intros Ha Hactive Hds Hd Ht Hm Hvs Hv Hf. unfold add_reading. serve_as Ha Hactive.
  cbv beta iota.
  unfold form_item, lift, bind, ret, get_db, put_db, commit, flash.
  rewrite Hds. cbv beta iota. rewrite Hd. cbv beta iota.
  rewrite Ht. cbv beta iota. rewrite Hm. cbv beta iota.
  rewrite Hvs. cbv beta iota. rewrite Hv. cbv beta iota.
  rewrite Hf. cbn. reflexivity.
Qed.

Lemma add_reading_success (a : App) (req : Request) :
  response (serve (add_reading req) a) = redirect "dashboard" ->
  exists u date_s d time_of_day meal_relation sugar_s sugar_value food_eaten,
    actor a = Some u /\ User.is_active u = true /\
    form_get "date" (form req) = Some date_s /\ strptime_ymd date_s = Some d /\
    form_get "time_of_day" (form req) = Some time_of_day /\
    form_get "meal_relation" (form req) = Some meal_relation /\
    form_get "sugar_value" (form req) = Some sugar_s /\ py_int sugar_s = Some sugar_value /\
    form_get "food_eaten" (form req) = Some food_eaten.
Proof.
  destruct (authenticated a) eqn:Hauth.
  2: { unfold serve, add_reading. rewrite (login_required_refuses _ _ Hauth).
       cbn. discriminate. }
  unfold authenticated in Hauth. destruct (actor a) as [u|] eqn:Ha; [|discriminate].
  unfold add_reading. serve_as Ha Hauth. cbv beta iota.
  unfold form_item, lift.
  destruct (form_get "date" (form req)) as [date_s|]; [|cbn; discriminate].
  unfold bind at 1 2, ret at 1.
  destruct (strptime_ymd date_s) as [d|] eqn:Hd; [|cbn; discriminate].
  destruct (form_get "time_of_day" (form req)) as [time_of_day|]; [|cbn; discriminate].
  unfold bind at 1, ret at 1.
  destruct (form_get "meal_relation" (form req)) as [meal_relation|]; [|cbn; discriminate].
  unfold bind at 1, ret at 1.
  destruct (form_get "sugar_value" (form req)) as [sugar_s|]; [|cbn; discriminate].
  unfold bind at 1 2, ret at 1.
  destruct (py_int sugar_s) as [sugar_value|] eqn:Hv; [|cbn; discriminate].
  destruct (form_get "food_eaten" (form req)) as [food_eaten|]; [|cbn; discriminate].
  intros _.
  exists u, date_s, d, time_of_day, meal_relation, sugar_s, sugar_value, food_eaten.
  repeat split; assumption.
Qed.

(** C7. When [add_reading] succeeds (it answers with the redirect to the
    dashboard), the request came from a logged-in user and carried the
    five fields, the date and the sugar value parsed, and the readings
    table has gained exactly one row: the parsed date, the time of day,
    meal relation and food as sent, the parsed sugar value, the adding
    user as owner, a key no reading had and the server clock as creation
    time.  That row is in [list_readings] of the user afterwards, which is
    what the history view of a non-admin user renders. *)
Theorem add_reading_round_trip (a : App) (req : Request) :
  response (serve (add_reading req) a) = redirect "dashboard" ->
  let a' := app_after (serve (add_reading req) a) in
  exists u date_s d time_of_day meal_relation sugar_s sugar_value food_eaten i,
    actor a = Some u /\
    form_get "date" (form req) = Some date_s /\ strptime_ymd date_s = Some d /\
    form_get "time_of_day" (form req) = Some time_of_day /\
    form_get "meal_relation" (form req) = Some meal_relation /\
    form_get "sugar_value" (form req) = Some sugar_s /\ py_int sugar_s = Some sugar_value /\
    form_get "food_eaten" (form req) = Some food_eaten /\
    let r := Reading.mk i (User.id u) d time_of_day meal_relation sugar_value
                        (Some food_eaten) (utcnow req) in
    ~ In i (map Reading.id (readings (database a))) /\
    readings (database a') = readings (database a) ++ [r] /\
    users (database a') = users (database a) /\
    actor a' = Some u /\
    In r (list_readings (User.id u) (database a')) /\
    (is_admin u = false ->
     forall req', serve (history req') a' =
       mkServed (render_template (history_html (list_readings (User.id u) (database a'))))
                [] a').
Proof.
  intros Hok a'. subst a'.
  destruct (add_reading_success a req Hok)
    as (u & date_s & d & t & m & sugar_s & v & f &
        Ha & Hactive & Hds & Hd & Ht & Hm & Hvs & Hv & Hf).
  rewrite (serve_add_reading _ _ _ _ _ _ _ _ _ _ Ha Hactive Hds Hd Ht Hm Hvs Hv Hf).
  cbn [app_after database readings users].
  exists u, date_s, d, t, m, sugar_s, v, f,
         (next_id (map Reading.id (readings (database a)))).
  assert (Hact : actor (mkApp (mkStore (users (database a))
                    (readings (database a) ++
                     [Reading.mk (next_id (map Reading.id (readings (database a))))
                        (User.id u) d t m v (Some f) (utcnow req)])) (cookie a)) = Some u).
  { unfold actor in *. cbn. exact Ha. }
  do 8 (split; [assumption|]). cbv zeta.
  split; [apply next_id_fresh|].
  do 2 (split; [reflexivity|]).
  split; [exact Hact|]. split.
  - unfold list_readings. apply order_by_In. cbn [readings].
    apply filter_In. split.
    + apply in_or_app. right. now left.
    + cbn. apply Z.eqb_refl.
  - intros Hadm req'. apply serve_history; assumption.
Qed.

End Readings.

Lemma add_reading_round_trip_witness :
  let req := Sample.post [("date", "2025-02-03"); ("time_of_day", "Night");
                          ("meal_relation", "After Food"); ("sugar_value", "145");
                          ("food_eaten", "dosa")] in
  response (serve (@add_reading Sample.lib req) (Sample.as_alice Sample.db))
    = redirect "dashboard" /\
  exists r,
    In r (list_readings 1 (database (app_after
           (serve (@add_reading Sample.lib req) (Sample.as_alice Sample.db))))) /\
    Reading.date r = mkdate 2025 2 3 /\ Reading.time_of_day r = "Night" /\
    Reading.meal_relation r = "After Food" /\ Reading.sugar_value r = 145 /\
    Reading.food_eaten r = Some "dosa" /\ Reading.user_id r = 1.
Proof.
  intros req. split; [reflexivity|].
  destruct (@add_reading_round_trip Sample.lib (Sample.as_alice Sample.db) req eq_refl)
    as (u & date_s & d & t & m & sugar_s & v & f & i &
        Ha & Hds & Hd & Ht & Hm & Hvs & Hv & Hf & _ & _ & _ & _ & Hin & _).
  injection Ha as <-. injection Hds as <-. injection Hd as <-. injection Ht as <-.
  injection Hm as <-. injection Hvs as <-. injection Hv as <-. injection Hf as <-.
  eexists. split; [exact Hin|]. repeat split.
Defined.

(** ** The order of the listings *)

Lemma date_compare_gt (a b : date) :
  date_compare a b = Gt <->
  year a > year b \/
  (year a = year b /\ (month a > month b \/ (month a = month b /\ day a > day b))).
Proof.
  unfold date_compare.
  destruct (Z.compare_spec (year a) (year b));
  destruct (Z.compare_spec (month a) (month b));
  destruct (Z.compare_spec (day a) (day b));
    split; intros G; try discriminate G; try reflexivity; lia.
Qed.

Lemma date_compare_eq (a b : date) : date_compare a b = Eq <-> a = b.
Proof.
  unfold date_compare. split.
  - destruct (Z.compare_spec (year a) (year b)); try discriminate.
    destruct (Z.compare_spec (month a) (month b)); try discriminate.
    destruct (Z.compare_spec (day a) (day b)); try discriminate.
    intros _. destruct a, b; cbn in *; congruence.
  - intros ->. rewrite !Z.compare_refl. reflexivity.
Qed.

Lemma date_compare_antisym (a b : date) :
  date_compare b a = CompOpp (date_compare a b).
Proof.
  unfold date_compare.
  rewrite (Z.compare_antisym (year a) (year b)),
          (Z.compare_antisym (month a) (month b)),
          (Z.compare_antisym (day a) (day b)).
  destruct (year a ?= year b), (month a ?= month b), (day a ?= day b); reflexivity.
Qed.

Lemma date_desc_created_desc_spec (a b : Reading.row) :
  date_desc_created_desc a b = true <-> newer_first a b.
Proof.
  unfold date_desc_created_desc, newer_first.
  destruct (date_compare (Reading.date a) (Reading.date b)) eqn:C.
  - apply date_compare_eq in C. rewrite Z.leb_le. split.
    + intros H. right. auto.
    + intros [G|[_ H]]; [discriminate G | exact H].
  - split; [discriminate|].
    intros [G|[E _]]; [discriminate G|].
    apply date_compare_eq in E. congruence.
  - split; [now left | reflexivity].
Qed.

Lemma date_desc_created_desc_total (a b : Reading.row) :
  date_desc_created_desc a b = false -> date_desc_created_desc b a = true.
Proof.
  unfold date_desc_created_desc.
  rewrite (date_compare_antisym (Reading.date a) (Reading.date b)).
  destruct (date_compare (Reading.date a) (Reading.date b)); cbn [CompOpp];
    try discriminate; try reflexivity.
  rewrite Z.leb_gt, Z.leb_le. lia.
Qed.

Lemma newer_first_trans (a b c : Reading.row) :
  newer_first a b -> newer_first b c -> newer_first a c.
Proof.
  unfold newer_first. rewrite !date_compare_gt.
  intros [G1|[E1 L1]] [G2|[E2 L2]].
  - left. lia.
  - left. rewrite <- E2. exact G1.
  - left. rewrite E1. exact G2.
  - right. split; [congruence | lia].
Qed.

Lemma newest_first_sorted (l : list Reading.row) :
  StronglySorted newer_first (order_by date_desc_created_desc l).
Proof.
  apply Sorted_StronglySorted.
  - intros a b c. apply newer_first_trans.
  - pose proof (order_by_sorted date_desc_created_desc
                  date_desc_created_desc_total l) as H.
    induction H as [|x l' Hs IH Hhd]; constructor; [exact IH|].
    destruct Hhd; constructor. apply date_desc_created_desc_spec. assumption.
Qed.

Lemma join_no_owner (us : list User.row) (r : Reading.row) :
  ~ In (Reading.user_id r) (map User.id us) ->
  flat_map (fun u => if User.id u =? Reading.user_id r then [r] else []) us = [].
Proof.
  induction us as [|w us IH]; [reflexivity|].
  cbn [map flat_map]. intros Hnotin.
  destruct (User.id w =? Reading.user_id r) eqn:Ew.
  - apply Z.eqb_eq in Ew. exfalso. apply Hnotin. now left.
  - cbn [app]. apply IH. intros H. apply Hnotin. now right.
Qed.

Lemma join_one_owner (us : list User.row) (r : Reading.row) :
  NoDup (map User.id us) ->
  (exists u, In u us /\ User.id u = Reading.user_id r) ->
  flat_map (fun u => if User.id u =? Reading.user_id r then [r] else []) us = [r].
Proof.
  induction us as [|v us IH]; intros Hnd (u & Hin & Hid); [contradiction|].
  cbn [map] in Hnd. inversion Hnd as [|? ? Hnotin Hnd']; subst.
  cbn [flat_map]. destruct (User.id v =? Reading.user_id r) eqn:E.
  - apply Z.eqb_eq in E. cbn [app]. f_equal.
    apply join_no_owner. rewrite <- E. exact Hnotin.
  - cbn [app]. apply IH; [assumption|].
    destruct Hin as [->|Hin]; [apply Z.eqb_neq in E; contradiction|eauto].
Qed.

Lemma join_user_all (db : Store) :
  store_ok db -> join_user (users db) (readings db) = readings db.
Proof.
  intros [Hnd Hfk]. unfold join_user.
  induction (readings db) as [|r rs IH]; [reflexivity|].
  cbn [flat_map]. rewrite join_one_owner; [|exact Hnd|apply Hfk; now left].
  cbn [app]. f_equal. apply IH. intros r' Hr'. apply Hfk. now right.
Qed.

(** C8, as stated, fails on the dashboard: the view shows ten readings at
    most, so the oldest of eleven readings is missing from it. *)
Lemma dashboard_limit_drops_readings : ~ dashboard_lists_all.
Proof.
  intros H.
  destruct (serve_dashboard (Sample.as_alice Sample.db11) Sample.get Sample.alice
              eq_refl eq_refl eq_refl) as (stats & _ & Hs).
  assert (Hin : In (Sample.reading 1 1 1 "Before Food" 91)
                   (limit 10 (list_readings 1 Sample.db11))).
  { apply (H (Sample.as_alice Sample.db11) Sample.get Sample.alice _ stats
             eq_refl eq_refl eq_refl).
    - rewrite Hs. reflexivity.
    - vm_compute. tauto. }
  vm_compute in Hin.
  repeat (destruct Hin as [Hin|Hin]; [discriminate Hin|]).
  exact Hin.
Qed.

(** C8, amended. [list_readings] is a permutation of the readings the user
    owns, sorted by date descending and, on equal dates, by creation time
    descending.  For an active actor, the history view of a non-admin
    user renders this list and the dashboard view renders its first ten
    entries only; the admin listing is sorted the same way and holds the
    readings that have an owner row, which is every reading when user ids
    are a key and each reading's [user_id] names a user. *)
Theorem list_readings_views (a : App) (req : Request) (u : User.row) :
  actor a = Some u -> User.is_active u = true ->
  let db := database a in
  let mine := list_readings (User.id u) db in
  let everyone := order_by date_desc_created_desc (join_user (users db) (readings db)) in
  Permutation mine (filter_by_user_id (User.id u) (readings db)) /\
  StronglySorted newer_first mine /\
  (is_admin u = false ->
   response (serve (history req) a) = render_template (history_html mine)) /\
  (is_admin u = false ->
   exists stats,
     response (serve (dashboard req) a)
     = render_template (dashboard_html (firstn 10 mine) stats)) /\
  (is_admin u = true ->
   response (serve (manage_readings req) a)
   = render_template (manage_readings_html everyone)) /\
  StronglySorted newer_first everyone /\
  (forall r, In r everyone <->
             In r (readings db) /\ exists o, owner_of (users db) r = Some o) /\
  (store_ok db -> Permutation everyone (readings db)).
Proof.
  intros Ha Hactive db mine everyone. subst db mine everyone.
  split; [symmetry; apply order_by_perm|].
  split; [apply newest_first_sorted|].
  split; [intros Hadm; rewrite (serve_history _ _ _ Ha Hactive Hadm); reflexivity|].
  split.
  { intros Hadm. destruct (serve_dashboard a req u Ha Hactive Hadm) as (stats & _ & Hs).
    exists stats. rewrite Hs. reflexivity. }
  split; [intros Hadm; rewrite (serve_manage_readings _ _ _ Ha Hactive Hadm); reflexivity|].
  split; [apply newest_first_sorted|].
  split.
  - intros r. rewrite order_by_In. split.
    + intros H. split; [apply join_user_In in H; tauto | eapply join_user_owner, H].
    + intros (Hr & o & Ho). apply join_user_In. split; [exact Hr|].
      apply user_get_id in Ho. exists o. tauto.
  - intros Hok. rewrite (join_user_all _ Hok). symmetry. apply order_by_perm.
Qed.

Lemma list_readings_views_witness :
  actor (Sample.as_alice Sample.db11) = Some Sample.alice /\
  Permutation (list_readings 1 Sample.db11) (filter_by_user_id 1 Sample.eleven) /\
  StronglySorted newer_first (list_readings 1 Sample.db11) /\
  response (serve (history Sample.get) (Sample.as_alice Sample.db11))
    = render_template (history_html (list_readings 1 Sample.db11)) /\
  exists stats,
    response (serve (dashboard Sample.get) (Sample.as_alice Sample.db11))
    = render_template (dashboard_html (firstn 10 (list_readings 1 Sample.db11)) stats).
Proof.
  split; [reflexivity|].
  destruct (list_readings_views (Sample.as_alice Sample.db11) Sample.get Sample.alice
              eq_refl eq_refl) as (Hperm & Hsorted & Hhist & Hdash & _).
  split; [exact Hperm|]. split; [exact Hsorted|].
  split; [exact (Hhist eq_refl) | exact (Hdash eq_refl)].
Defined.

(** The sample store satisfies the schema constraints, and the admin
    listing over it shows all eleven readings. *)
Example sample_store_ok : store_ok Sample.db11.
Proof.
  split.
  - cbn. repeat constructor; cbn; intuition discriminate.
  - intros r Hr. exists Sample.alice. split; [now left|].
    cbn in Hr. repeat (destruct Hr as [<-|Hr]; [reflexivity|]). contradiction.
Qed.

(** ** Profile updates *)

Section Profile.
Context {lib : PyLib}.

(** C9. When an active logged-in user sends [update_profile] a new
    password (non-empty after stripping) and a confirmation that differs
    from it, the request ends
    with a flashed message of category "error" and the redirect to the
    profile page, and nothing is committed: the application after the
    request is the application before it, so the row stored for the user
    (name, the four ranges, password hash) is the same row. *)
Theorem update_profile_password_mismatch (a : App) (req : Request) (u : User.row) :
  actor a = Some u -> User.is_active u = true ->
  nonempty (form_get_stripped req "new_password") = true ->
  form_get_stripped req "new_password" <> form_get_stripped req "confirm_password" ->
  let s := serve (update_profile req) a in
  app_after s = a /\
  actor (app_after s) = Some u /\
  (exists message, In (message, "error") (messages s)) /\
  response s = redirect "profile".
Proof.
  intros Ha Hactive Hnew Hdiff s.
  assert (H : database (app_after s) = database a /\ cookie (app_after s) = cookie a /\
              (exists message, In (message, "error") (messages s)) /\
              response s = redirect "profile").
  { subst s. unfold serve, update_profile.
    rewrite (login_required_actor _ _ _ [] Ha Hactive).
    apply String.eqb_neq in Hdiff.
    remember (form_get_stripped req "new_password") as np eqn:Enp.
    remember (form_get_stripped req "confirm_password") as cp eqn:Ecp.
    clear Enp Ecp.
    cbv [try_except bind set_current_user current_user load_user form_int form_item
         lift flash ret rollback put_db get_db raise commit].
    rewrite Hnew, Hdiff.
    repeat (cbv beta iota zeta;
            cbn [committed session_db user_cookie flashed users readings];
            match goal with
            | |- context [match form_get ?k ?f with _ => _ end] => destruct (form_get k f)
            | |- context [match py_int ?x with _ => _ end] => destruct (py_int x)
            | |- context [match user_get ?i ?l with _ => _ end] => destruct (user_get i l)
            | |- context [match cookie a with _ => _ end] => destruct (cookie a)
            | |- context [if nonempty ?x then _ else _] => destruct (nonempty x)
            end).
    all: cbn; repeat split; eexists; left; reflexivity. }
  destruct H as (Hdb & Hck & Hmsg & Hresp).
  assert (Heq : app_after s = a).
  { destruct (app_after s), a. cbn in *. congruence. }
  rewrite Heq. auto.
Qed.

End Profile.

Lemma update_profile_password_mismatch_witness :
  let req := Sample.post [("name", "Alice L."); ("before_food_min", "70");
                          ("before_food_max", "120"); ("after_food_min", "95");
                          ("after_food_max", "170"); ("new_password", "rabbit");
                          ("confirm_password", "hare")] in
  let s := serve (@update_profile Sample.lib req) (Sample.as_alice Sample.db) in
  app_after s = Sample.as_alice Sample.db /\
  actor (app_after s) = Some Sample.alice /\
  (exists message, In (message, "error") (messages s)) /\
  response s = redirect "profile".
Proof.
  exact (@update_profile_password_mismatch Sample.lib (Sample.as_alice Sample.db)
           (Sample.post [("name", "Alice L."); ("before_food_min", "70");
                         ("before_food_max", "120"); ("after_food_min", "95");
                         ("after_food_max", "170"); ("new_password", "rabbit");
                         ("confirm_password", "hare")])
           Sample.alice eq_refl eq_refl eq_refl ltac:(vm_compute; discriminate)).
Defined.

(** The same form with a matching confirmation is committed: the name,
    the ranges and the hash are replaced.  A form whose password fields
    are blank updates the name and the ranges only; a range that is not a
    number rolls everything back. *)
Example update_profile_other_paths :
  let fields := [("name", " Alice L. "); ("before_food_min", "70");
                 ("before_food_max", "120"); ("after_food_min", "95");
                 ("after_food_max", "170")] in
  actor (app_after (serve (@update_profile Sample.lib
           (Sample.post (fields ++ [("new_password", "rabbit");
                                    ("confirm_password", " rabbit")])))
           (Sample.as_alice Sample.db)))
    = Some (User.mk 1 "alice@example.org" (Some "Alice L.") "s9$rabbit" "user" true
                    70 120 95 170) /\
  actor (app_after (serve (@update_profile Sample.lib (Sample.post fields))
           (Sample.as_alice Sample.db)))
    = Some (User.mk 1 "alice@example.org" (Some "Alice L.") "s1$wonderland" "user" true
                    70 120 95 170) /\
  serve (@update_profile Sample.lib
           (Sample.post [("name", "Alice L."); ("before_food_min", "70");
                         ("before_food_max", "high")]))
        (Sample.as_alice Sample.db)
    = mkServed (redirect "profile")
               [("Error updating profile: invalid literal", "error")]
               (Sample.as_alice Sample.db).
Proof. repeat split. Qed.

(** ** The schema constraints are kept

    Whatever the request, [signup] and [add_reading] either leave the
    database alone or append one row, and the appended row respects the
    keys: the new user has a fresh id, the new reading belongs to the
    logged-in user. *)

Section Constraints.
Context {lib : PyLib}.

Lemma signup_effect (a : App) (req : Request) :
  let db' := database (app_after (serve (signup req) a)) in
  db' = database a \/
  exists u, ~ In (User.id u) (map User.id (users (database a))) /\
            db' = mkStore (users (database a) ++ [u]) (readings (database a)).
Proof.
  unfold serve, signup.
  cbv [bind form_item ret raise get_db put_db commit flash].
  destruct (String.eqb (method req) "POST"); [|left; reflexivity].
  destruct (form_get "email" (form req)) as [email|]; [|left; reflexivity].
  cbv beta iota.
  destruct (form_get "password" (form req)) as [password|]; [|left; reflexivity].
  cbv beta iota. cbn [session_db].
  destruct (user_by_email email (users (database a))); [left; reflexivity|].
  right. eexists. split; [|reflexivity]. apply next_id_fresh.
Qed.

Lemma add_reading_effect (a : App) (req : Request) :
  let db' := database (app_after (serve (add_reading req) a)) in
  db' = database a \/
  exists u r, actor a = Some u /\ Reading.user_id r = User.id u /\
              db' = mkStore (users (database a)) (readings (database a) ++ [r]).
Proof.
  intros db'.
  assert (E : db' = database (app_after (serve (add_reading req) a))) by reflexivity.
  clearbody db'. revert E.
  destruct (authenticated a) eqn:Hauth.
  2: { unfold serve, add_reading. rewrite (login_required_refuses _ _ Hauth).
       cbn. intros ->. left. reflexivity. }
  unfold authenticated in Hauth. destruct (actor a) as [u|] eqn:Ha; [|discriminate].
  unfold add_reading. serve_as Ha Hauth. cbv beta iota.
  cbv [bind form_item lift ret raise get_db put_db commit flash].
  destruct (form_get "date" (form req)) as [date_s|]; cbv beta iota;
    [|cbn; intros ->; left; reflexivity].
  destruct (strptime_ymd date_s) as [d|]; cbv beta iota;
    [|cbn; intros ->; left; reflexivity].
  destruct (form_get "time_of_day" (form req)) as [t|]; cbv beta iota;
    [|cbn; intros ->; left; reflexivity].
  destruct (form_get "meal_relation" (form req)) as [m|]; cbv beta iota;
    [|cbn; intros ->; left; reflexivity].
  destruct (form_get "sugar_value" (form req)) as [sugar_s|]; cbv beta iota;
    [|cbn; intros ->; left; reflexivity].
  destruct (py_int sugar_s) as [v|]; cbv beta iota;
    [|cbn; intros ->; left; reflexivity].
  destruct (form_get "food_eaten" (form req)) as [f|]; cbv beta iota;
    [|cbn; intros ->; left; reflexivity].
  cbn [app_after database committed session_db]. intros ->.
  right. exists u. eexists. split; [reflexivity|]. split; [|reflexivity]. reflexivity.
Qed.

Lemma store_ok_kept (a : App) (req : Request) :
  store_ok (database a) ->
  store_ok (database (app_after (serve (signup req) a))) /\
  store_ok (database (app_after (serve (add_reading req) a))).
Proof.
  intros [Hnd Hfk]. split.
  - destruct (signup_effect a req) as [->|(u & Hfresh & ->)]; [split; assumption|].
    split; cbn [users readings].
    + rewrite map_app. cbn [map]. apply NoDup_app.
      * exact Hnd.
      * repeat constructor. intros [].
      * intros i Hi [<-|[]]. contradiction.
    + intros r Hr. destruct (Hfk r Hr) as (o & Ho & E).
      exists o. split; [apply in_or_app; now left | exact E].
  - destruct (add_reading_effect a req) as [->|(u & r & Ha & Hown & ->)];
      [split; assumption|].
    split; cbn [users readings]; [exact Hnd|].
    intros r' Hr'. apply in_app_or in Hr'. destruct Hr' as [Hr'|[<-|[]]].
    + apply Hfk, Hr'.
    + exists u. split; [apply (actor_id _ _ Ha) | symmetry; exact Hown].
Qed.

End Constraints.

(** The float literals of the statistics example are the numbers they
    print as. *)
Example float64_values :
  (Q_of_float (float64 110) == 110)%Q /\
  (Q_of_float (float64 200) == 200)%Q /\
  (Q_of_float (float64 140) == 140)%Q.
Proof. repeat split. Qed.

(** * Further properties *)

(** ** Who may do what *)

Lemma serve_anonymous (a : App) (h : M Response) :
  authenticated a = false ->
  serve (login_required h) a =
  mkServed (redirect "login") [("Please log in to access this page.", "message")] a.
Proof.
  intros Ha. unfold serve. rewrite (login_required_refuses _ _ Ha).
  cbn. rewrite app_eta. reflexivity.
Qed.

(** X1. A request that is not authenticated (no session id, an id that
    names no user row, or the id of an account that is switched off) is
    answered by the redirect to the login page on every one of the
    thirteen guarded routes, with the "Please log in" notice, and changes
    nothing, whatever the route would have done for a user. *)
Theorem anonymous_is_sent_to_login {lib : PyLib} (a : App) (req : Request) (i : Z) :
  authenticated a = false ->
  let refused :=
    mkServed (redirect "login") [("Please log in to access this page.", "message")] a in
  serve (logout req) a = refused /\
  serve (dashboard req) a = refused /\
  serve (add_reading req) a = refused /\
  serve (history req) a = refused /\
  serve (profile req) a = refused /\
  serve (update_profile req) a = refused /\
  serve (admin_dashboard req) a = refused /\
  serve (manage_users req) a = refused /\
  serve (manage_readings req) a = refused /\
  serve (toggle_user i req) a = refused /\
  serve (reset_user_password i req) a = refused /\
  serve (delete_reading i req) a = refused /\
  serve (chart_data req) a = refused.
Proof.
  intros Ha refused. subst refused.
  repeat split; apply serve_anonymous; exact Ha.
Qed.

Lemma anonymous_is_sent_to_login_witness :
  authenticated (mkApp Sample.db (Some 9)) = false /\
  authenticated (mkApp Sample.db (Some 3)) = false /\
  serve (delete_reading 1 Sample.get) (mkApp Sample.db (Some 9)) =
    mkServed (redirect "login") [("Please log in to access this page.", "message")]
             (mkApp Sample.db (Some 9)) /\
  serve (profile Sample.get) (mkApp Sample.db (Some 3)) =
    mkServed (redirect "login") [("Please log in to access this page.", "message")]
             (mkApp Sample.db (Some 3)).
Proof.
  split; [reflexivity|]. split; [reflexivity|].
  destruct (@anonymous_is_sent_to_login Sample.lib (mkApp Sample.db (Some 9)) Sample.get 1
              eq_refl) as (_ & _ & _ & _ & _ & _ & _ & _ & _ & _ & _ & Hdelete & _).
  destruct (@anonymous_is_sent_to_login Sample.lib (mkApp Sample.db (Some 3)) Sample.get 1
              eq_refl) as (_ & _ & _ & _ & Hprofile & _).
  split; [exact Hdelete | exact Hprofile].
Defined.

Lemma serve_reset_user_password {lib : PyLib}
    (a : App) (req : Request) (user_id : Z) (adm user : User.row) :
  actor a = Some adm -> User.is_active adm = true -> is_admin adm = true ->
  user_get user_id (users (database a)) = Some user ->
  serve (reset_user_password user_id req) a =
  mkServed (redirect "manage_users")
    [(String.append "Password reset for "
        (String.append (User.email user) ". Temporary password: TempPass123!"),
      "success")]
    (mkApp (mkStore
              (map (fun v => if User.id v =? User.id user
                             then User.set_password_hash
                                    (generate_password_hash (salt req) "TempPass123!") v
                             else v)
                   (users (database a)))
              (readings (database a)))
           (cookie a)).
Proof.
  intros Ha Hactive Hadm Hget. unfold reset_user_password. serve_as Ha Hactive.
  cbv beta iota.
  rewrite Hadm. cbn [negb]. unfold bind at 1, get_db. cbn [session_db].
  rewrite Hget. unfold bind, put_db, commit, flash, ret. cbn. reflexivity.
Qed.

Lemma serve_admin_only (a : App) (u : User.row) (h : User.row -> M Response) :
  actor a = Some u -> User.is_active u = true -> is_admin u = false ->
  serve (login_required
           (bind current_user
              (fun v => if negb (is_admin v) then ret (redirect "dashboard") else h v))) a
  = mkServed (redirect "dashboard") [] a.
Proof.
  intros Ha Hactive Hadm. serve_as Ha Hactive. cbv beta iota. rewrite Hadm.
  cbn. rewrite app_eta. reflexivity.
Qed.

(** X2. An active user whose role is not admin gets nothing from the
    admin routes: the admin dashboard, the listing of all readings,
    [toggle_user] and [reset_user_password] all answer with the redirect
    to the user's own dashboard, flash nothing and change nothing, for
    any target id. *)
Theorem admin_routes_refuse_users {lib : PyLib}
    (a : App) (req : Request) (u : User.row) (i : Z) :
  actor a = Some u -> User.is_active u = true -> is_admin u = false ->
  let refused := mkServed (redirect "dashboard") [] a in
  serve (admin_dashboard req) a = refused /\
  serve (manage_readings req) a = refused /\
  serve (toggle_user i req) a = refused /\
  serve (reset_user_password i req) a = refused.
Proof.
  intros Ha Hactive Hadm refused. subst refused.
  repeat split; apply (serve_admin_only a u); assumption.
Qed.

Lemma admin_routes_refuse_users_witness :
  actor (Sample.as_alice Sample.db) = Some Sample.alice /\
  serve (@reset_user_password Sample.lib 2 Sample.get) (Sample.as_alice Sample.db)
    = mkServed (redirect "dashboard") [] (Sample.as_alice Sample.db) /\
  serve (toggle_user 3 Sample.get) (Sample.as_alice Sample.db)
    = mkServed (redirect "dashboard") [] (Sample.as_alice Sample.db).
Proof.
  split; [reflexivity|].
  destruct (@admin_routes_refuse_users Sample.lib (Sample.as_alice Sample.db) Sample.get
              Sample.alice 2 eq_refl eq_refl eq_refl) as (_ & _ & _ & Hreset).
  destruct (@admin_routes_refuse_users Sample.lib (Sample.as_alice Sample.db) Sample.get
              Sample.alice 3 eq_refl eq_refl eq_refl) as (_ & _ & Htoggle & _).
  split; assumption.
Defined.

(** ** Accounts over several requests *)

Lemma user_get_map (i : Z) (g : User.row -> User.row) (us : list User.row) :
  (forall v, User.id (g v) = User.id v) ->
  user_get i (map g us) = option_map g (user_get i us).
Proof.
  intros Hid. unfold user_get. apply find_map_same.
  intros v. rewrite Hid. reflexivity.
Qed.

Lemma same_id_same_row (us : list User.row) (v w : User.row) :
  NoDup (map User.id us) -> In v us -> In w us -> User.id v = User.id w -> v = w.
Proof.
  induction us as [|x us IH]; [contradiction|].
  cbn [map]. intros Hnd Hv Hw E. inversion Hnd as [|? ? Hx Hnd']; subst.
  destruct Hv as [->|Hv], Hw as [->|Hw].
  - reflexivity.
  - exfalso. apply Hx. rewrite E. apply in_map, Hw.
  - exfalso. apply Hx. rewrite <- E. apply in_map, Hv.
  - apply IH; assumption.
Qed.

Lemma actor_after_edit (a : App) (adm : User.row) (g : User.row -> User.row) (rs : list Reading.row) :
  actor a = Some adm ->
  (forall v, User.id (g v) = User.id v) -> g adm = adm ->
  actor (mkApp (mkStore (map g (users (database a))) rs) (cookie a)) = Some adm.
Proof.
  unfold actor. cbn [cookie database users]. intros Ha Hid Hadm.
  destruct (cookie a) as [c|]; [|discriminate].
  rewrite (user_get_map _ _ _ Hid), Ha. cbn [option_map]. rewrite Hadm. reflexivity.
Qed.

(** X3. [toggle_user] undoes itself.  When an active admin toggles
    another user's account twice, the first request flips that user's
    active flag and the second puts the whole application back as it was
    (user ids being a key). *)
Theorem toggle_user_twice (a : App) (req1 req2 : Request) (adm user : User.row) :
  actor a = Some adm -> is_admin adm = true -> User.is_active adm = true ->
  user_get (User.id user) (users (database a)) = Some user ->
  User.id user <> User.id adm ->
  NoDup (map User.id (users (database a))) ->
  let a1 := app_after (serve (toggle_user (User.id user) req1) a) in
  user_get (User.id user) (users (database a1))
    = Some (User.set_is_active (negb (User.is_active user)) user) /\
  app_after (serve (toggle_user (User.id user) req2) a1) = a.
Proof.
  intros Ha Hadm Hactive Hget Hother Hnd a1. subst a1.
  rewrite (serve_toggle_user _ _ _ _ _ Ha Hactive Hadm Hget).
  set (g := fun v => if User.id v =? User.id user
                     then User.set_is_active (negb (User.is_active user)) v else v).
  assert (Hid : forall v, User.id (g v) = User.id v).
  { intros v. unfold g. destruct (User.id v =? User.id user); reflexivity. }
  assert (Hget1 : user_get (User.id user) (map g (users (database a)))
                  = Some (User.set_is_active (negb (User.is_active user)) user)).
  { rewrite (user_get_map _ _ _ Hid), Hget. cbn [option_map]. unfold g.
    rewrite Z.eqb_refl. reflexivity. }
  split; [exact Hget1|].
  assert (Ha1 : actor (mkApp (mkStore (map g (users (database a))) (readings (database a)))
                             (cookie a)) = Some adm).
  { apply actor_after_edit; [exact Ha | exact Hid |].
    unfold g. destruct (Z.eqb_spec (User.id adm) (User.id user)); [congruence|reflexivity]. }
  rewrite (serve_toggle_user _ _ _ _ _ Ha1 Hactive Hadm Hget1).
  cbn [database users readings cookie User.id User.set_is_active User.is_active].
  rewrite negb_involutive, map_map.
  clear Ha1 Ha. destruct a as [[us rs] ck]. cbn [database users readings cookie] in *.
  do 2 f_equal.
  rewrite <- (map_id us) at 2. apply map_ext_in. intros v Hv.
  rewrite Hid. unfold g.
  destruct (Z.eqb_spec (User.id v) (User.id user)) as [E|E]; [|reflexivity].
  apply user_get_id in Hget. destruct Hget as [_ Hin].
  rewrite (same_id_same_row us v user Hnd Hv Hin E).
  clear. destruct user; reflexivity.
Qed.

Lemma toggle_user_twice_witness :
  let a := Sample.as_root Sample.db in
  let a1 := app_after (serve (toggle_user 1 Sample.get) a) in
  user_get 1 (users (database a1)) = Some (User.set_is_active false Sample.alice) /\
  app_after (serve (toggle_user 1 Sample.get) a1) = a.
Proof.
  refine (toggle_user_twice (Sample.as_root Sample.db) Sample.get Sample.get
            Sample.root Sample.alice eq_refl eq_refl eq_refl eq_refl _ _).
  - discriminate.
  - cbn. repeat constructor; cbn; intuition discriminate.
Defined.

Section AccountFlows.
Context {lib : PyLib}.

(** X4. After an active admin has reset a user's password, the notice
    shown to the admin spells out the temporary password, and a login of
    that user (an active account) with "TempPass123!" is accepted and
    binds the session to the user, provided the hash made of the
    temporary password verifies against it. *)
Theorem reset_password_then_login
    (a : App) (req0 req : Request) (adm user : User.row) :
  actor a = Some adm -> is_admin adm = true -> User.is_active adm = true ->
  user_get (User.id user) (users (database a)) = Some user ->
  user_by_email (User.email user) (users (database a)) = Some user ->
  User.is_active user = true ->
  check_password_hash (generate_password_hash (salt req0) "TempPass123!") "TempPass123!"
    = true ->
  method req = "POST" ->
  form_get "email" (form req) = Some (User.email user) ->
  form_get "password" (form req) = Some "TempPass123!" ->
  let s0 := serve (reset_user_password (User.id user) req0) a in
  messages s0 =
    [(String.append "Password reset for "
        (String.append (User.email user) ". Temporary password: TempPass123!"),
      "success")] /\
  user_get (User.id user) (users (database (app_after s0)))
    = Some (User.set_password_hash
              (generate_password_hash (salt req0) "TempPass123!") user) /\
  let s := serve (login req) (app_after s0) in
  cookie (app_after s) = Some (User.id user) /\
  response s = redirect (if is_admin user then "admin_dashboard" else "dashboard").
Proof.
  intros Ha Hadm Hactive Hget Hmail Hact Hlaw Hm He Hp s0. subst s0.
  rewrite (serve_reset_user_password _ _ _ _ _ Ha Hactive Hadm Hget).
  cbn [messages app_after database users].
  set (g := fun v => if User.id v =? User.id user
                     then User.set_password_hash
                            (generate_password_hash (salt req0) "TempPass123!") v
                     else v).
  assert (Hid : forall v, User.id (g v) = User.id v).
  { intros v. unfold g. destruct (User.id v =? User.id user); reflexivity. }
  split; [reflexivity|]. split.
  { rewrite (user_get_map _ _ _ Hid), Hget. cbn [option_map]. unfold g.
    rewrite Z.eqb_refl. reflexivity. }
  cbv zeta. rewrite (serve_login _ _ _ _ Hm He Hp). cbn [database users].
  unfold user_by_email in *. rewrite find_map_same.
  - rewrite Hmail. cbn [option_map]. unfold g. rewrite Z.eqb_refl.
    cbn [User.set_password_hash User.password_hash User.is_active].
    rewrite Hlaw, Hact. split; reflexivity.
  - intros v. unfold g. destruct (User.id v =? User.id user); reflexivity.
Qed.

Lemma user_by_email_app (e : string) (us : list User.row) (u : User.row) :
  user_by_email e us = None -> User.email u = e ->
  user_by_email e (us ++ [u]) = Some u.
Proof.
  unfold user_by_email. intros Hnone He.
  induction us as [|v us IH]; cbn [app find] in *.
  - rewrite He, String.eqb_refl. reflexivity.
  - destruct (String.eqb (User.email v) e); [discriminate|]. apply IH, Hnone.
Qed.

(** X5. Signup and login compose: after a signup with an email nobody
    had, a login with the same email and password is accepted, binds the
    session to the new user's id and leads to the user dashboard,
    provided the hash made at signup verifies against the password. *)
Theorem signup_then_login (a : App) (req1 req2 : Request) (email password : string) :
  method req1 = "POST" ->
  form_get "email" (form req1) = Some email ->
  form_get "password" (form req1) = Some password ->
  email_registered email (users (database a)) = false ->
  check_password_hash (generate_password_hash (salt req1) password) password = true ->
  method req2 = "POST" ->
  form_get "email" (form req2) = Some email ->
  form_get "password" (form req2) = Some password ->
  let a1 := app_after (serve (signup req1) a) in
  let s := serve (login req2) a1 in
  exists u,
    user_by_email email (users (database a1)) = Some u /\
    ~ In (User.id u) (map User.id (users (database a))) /\
    cookie (app_after s) = Some (User.id u) /\
    database (app_after s) = database a1 /\
    response s = redirect "dashboard".
Proof.
  intros Hm1 He1 Hp1 Hfresh Hlaw Hm2 He2 Hp2 a1 s. subst s a1.
  rewrite user_by_email_registered in Hfresh.
  rewrite (serve_signup _ _ _ _ Hm1 He1 Hp1).
  destruct (user_by_email email (users (database a))) eqn:Hnone; [discriminate|].
  cbn [app_after database users].
  rewrite (serve_login _ _ _ _ Hm2 He2 Hp2). cbn [database users].
  rewrite (user_by_email_app email _
             (User.new (next_id (map User.id (users (database a)))) email
                       (generate_password_hash (salt req1) password))
             Hnone eq_refl).
  cbn [User.new User.password_hash User.is_active]. rewrite Hlaw.
  eexists. split; [reflexivity|]. split; [apply next_id_fresh|].
  repeat split.
Qed.

End AccountFlows.

Lemma reset_password_then_login_witness :
  let s0 := serve (@reset_user_password Sample.lib 1 Sample.get)
                  (Sample.as_root Sample.db) in
  let s := serve (@login Sample.lib
                    (Sample.post [("email", "alice@example.org");
                                  ("password", "TempPass123!")]))
                 (app_after s0) in
  messages s0 = [("Password reset for alice@example.org. Temporary password: TempPass123!",
                  "success")] /\
  cookie (app_after s) = Some 1 /\ response s = redirect "dashboard".
Proof.
  destruct (@reset_password_then_login Sample.lib (Sample.as_root Sample.db) Sample.get
              (Sample.post [("email", "alice@example.org"); ("password", "TempPass123!")])
              Sample.root Sample.alice
              eq_refl eq_refl eq_refl eq_refl eq_refl eq_refl eq_refl eq_refl eq_refl
              eq_refl) as (Hmsg & _ & Hck & Hresp).
  split; [exact Hmsg|]. split; [exact Hck | exact Hresp].
Defined.

Lemma signup_then_login_witness :
  let form := [("email", "carol@example.org"); ("password", "tea")] in
  let a1 := app_after (serve (@signup Sample.lib (Sample.post form))
                             (Sample.anonymous Sample.db)) in
  let s := serve (@login Sample.lib (Sample.post form)) a1 in
  exists u,
    user_by_email "carol@example.org" (users (database a1)) = Some u /\
    ~ In (User.id u) (map User.id (users Sample.db)) /\
    cookie (app_after s) = Some (User.id u) /\
    database (app_after s) = database a1 /\
    response s = redirect "dashboard".
Proof.
  exact (@signup_then_login Sample.lib (Sample.anonymous Sample.db)
           (Sample.post [("email", "carol@example.org"); ("password", "tea")])
           (Sample.post [("email", "carol@example.org"); ("password", "tea")])
           "carol@example.org" "tea"
           eq_refl eq_refl eq_refl eq_refl eq_refl eq_refl eq_refl eq_refl).
Defined.

(** X6. [logout] ends the session and nothing else: for an active
    logged-in user it answers with the redirect to the login page, keeps
    the database and empties the cookie, so that the guarded routes refuse
    the requests that follow. *)
Theorem logout_ends_session {lib : PyLib}
    (a : App) (req req' : Request) (u : User.row) (i : Z) :
  actor a = Some u -> User.is_active u = true ->
  let s := serve (logout req) a in
  s = mkServed (redirect "login") [] (mkApp (database a) None) /\
  let refused :=
    mkServed (redirect "login") [("Please log in to access this page.", "message")]
             (app_after s) in
  serve (add_reading req') (app_after s) = refused /\
  serve (delete_reading i req') (app_after s) = refused /\
  serve (update_profile req') (app_after s) = refused /\
  serve (chart_data req') (app_after s) = refused.
Proof.
  intros Ha Hactive s.
  assert (Hs : s = mkServed (redirect "login") [] (mkApp (database a) None)).
  { subst s. unfold serve, logout. rewrite (login_required_actor _ _ _ [] Ha Hactive).
    reflexivity. }
  split; [exact Hs|]. rewrite Hs. cbn [app_after].
  repeat split; apply serve_anonymous; reflexivity.
Qed.

Lemma logout_ends_session_witness :
  let s := serve (logout Sample.get) (Sample.as_alice Sample.db) in
  s = mkServed (redirect "login") [] (Sample.anonymous Sample.db) /\
  serve (delete_reading 1 Sample.get) (app_after s)
    = mkServed (redirect "login") [("Please log in to access this page.", "message")]
               (app_after s).
Proof.
  destruct (@logout_ends_session Sample.lib (Sample.as_alice Sample.db) Sample.get
              Sample.get Sample.alice 1 eq_refl eq_refl) as (Hs & _ & Hdel & _).
  split; [exact Hs | exact Hdel].
Defined.

(** ** Start-up *)

Section Startup.
Context {lib : PyLib}.

Lemma startup_eq (salt : string) (db : Store) :
  startup salt db =
  match user_by_email "siddhuplr@gmail.com" (users db) with
  | Some _ => db
  | None =>
      mkStore (users db ++
               [User.mk (next_id (map User.id (users db))) "siddhuplr@gmail.com" None
                        (generate_password_hash salt "Sakkara@2025") "admin" true
                        80 130 90 180])
              (readings db)
  end.
Proof.
  unfold startup, create_admin_user, bind at 1, get_db. cbn [session_db].
  destruct (user_by_email "siddhuplr@gmail.com" (users db)); reflexivity.
Qed.

(** X7. [create_admin_user] is create-if-absent keyed by the fixed
    email.  When some row already has the email, whatever its role, the
    tables stay as they are; otherwise one row is appended, with a fresh
    id, role "admin", active, and the hash of the built-in password.
    Either way a row with the email exists afterwards, the readings are
    kept, and running the start-up again (with any salt) changes
    nothing. *)
Theorem create_admin_user_once (salt salt' : string) (db : Store) :
  (if email_registered "siddhuplr@gmail.com" (users db)
   then startup salt db = db
   else exists i,
          ~ In i (map User.id (users db)) /\
          startup salt db =
          mkStore (users db ++
                   [User.mk i "siddhuplr@gmail.com" None
                            (generate_password_hash salt "Sakkara@2025") "admin" true
                            80 130 90 180])
                  (readings db)) /\
  email_registered "siddhuplr@gmail.com" (users (startup salt db)) = true /\
  readings (startup salt db) = readings db /\
  startup salt' (startup salt db) = startup salt db.
Proof.
  assert (Hreg : email_registered "siddhuplr@gmail.com" (users (startup salt db)) = true).
  { rewrite startup_eq, !user_by_email_registered.
    destruct (user_by_email "siddhuplr@gmail.com" (users db)) eqn:E.
    - rewrite E. reflexivity.
    - cbn [users]. erewrite user_by_email_app; [reflexivity | exact E | reflexivity]. }
  split; [|split; [exact Hreg|split]].
  - rewrite user_by_email_registered, startup_eq.
    destruct (user_by_email "siddhuplr@gmail.com" (users db)); [reflexivity|].
    eexists. split; [apply next_id_fresh | reflexivity].
  - rewrite startup_eq.
    destruct (user_by_email "siddhuplr@gmail.com" (users db)); reflexivity.
  - rewrite user_by_email_registered in Hreg.
    rewrite (startup_eq salt' (startup salt db)).
    destruct (user_by_email "siddhuplr@gmail.com" (users (startup salt db)));
      [reflexivity | discriminate].
Qed.

End Startup.

(** ** The database address *)

Lemma prefix_append (p s : string) : String.prefix p (String.append p s) = true.
Proof.
  induction p as [|c p IH]; cbn; [destruct s; reflexivity|].
  destruct (ascii_dec c c); [exact IH | congruence].
Qed.

Lemma drop_append (p s : string) : drop (String.length p) (String.append p s) = s.
Proof. induction p as [|c p IH]; cbn; [reflexivity | exact IH]. Qed.

Lemma replace_first_prefix (old new s : string) :
  String.prefix old s = true ->
  replace_first old new s = String.append new (drop (String.length old) s).
Proof.
  intros H. destruct s; cbn [replace_first]; rewrite H; reflexivity.
Qed.

(** X8. The database address never keeps the [postgres://] scheme: a
    [DATABASE_URL] of that scheme has exactly its scheme rewritten to
    [postgresql://] (the rest of the address is kept), every other
    non-empty value is used as it is, an unset or empty variable selects
    the local SQLite file, and feeding the result back in gives the same
    address. *)
Theorem database_uri_scheme (DATABASE_URL : option string) (url rest : string) :
  String.prefix "postgres://" (sqlalchemy_database_uri DATABASE_URL) = false /\
  sqlalchemy_database_uri (Some (String.append "postgres://" rest))
    = String.append "postgresql://" rest /\
  (nonempty url = true -> String.prefix "postgres://" url = false ->
   sqlalchemy_database_uri (Some url) = url) /\
  sqlalchemy_database_uri None = "sqlite:///sakkara_stats.db" /\
  sqlalchemy_database_uri (Some "") = "sqlite:///sakkara_stats.db" /\
  sqlalchemy_database_uri (Some (sqlalchemy_database_uri DATABASE_URL))
    = sqlalchemy_database_uri DATABASE_URL.
Proof.
  assert (Hpg : forall r, sqlalchemy_database_uri (Some (String.append "postgres://" r))
                          = String.append "postgresql://" r).
  { intros r. unfold sqlalchemy_database_uri.
    rewrite (prefix_append "postgres://" r).
    rewrite (replace_first_prefix _ _ _ (prefix_append "postgres://" r)).
    rewrite drop_append. reflexivity. }
  assert (Hno : String.prefix "postgres://" (sqlalchemy_database_uri DATABASE_URL) = false).
  { destruct DATABASE_URL as [u|]; [|reflexivity].
    unfold sqlalchemy_database_uri.
    destruct (nonempty u); [|reflexivity].
    destruct (String.prefix "postgres://" u) eqn:P; [|exact P].
    rewrite (replace_first_prefix _ _ _ P). reflexivity. }
  split; [exact Hno|]. split; [apply Hpg|]. split.
  { intros Hne Hp. unfold sqlalchemy_database_uri. rewrite Hne, Hp. reflexivity. }
  split; [reflexivity|]. split; [reflexivity|].
  unfold sqlalchemy_database_uri at 1. rewrite Hno.
  destruct (nonempty (sqlalchemy_database_uri DATABASE_URL)) eqn:N; [reflexivity|].
  destruct DATABASE_URL as [u|]; [|discriminate N].
  unfold sqlalchemy_database_uri in *.
  destruct (nonempty u) eqn:Nu; [|reflexivity].
  destruct (String.prefix "postgres://" u) eqn:P.
  - rewrite (replace_first_prefix _ _ _ P) in N. discriminate N.
  - congruence.
Qed.

Lemma database_uri_scheme_witness :
  sqlalchemy_database_uri (Some "postgres://u:pw@db.example.org:5432/sakkara")
    = "postgresql://u:pw@db.example.org:5432/sakkara" /\
  sqlalchemy_database_uri (Some "mysql://db.example.org/postgres://")
    = "mysql://db.example.org/postgres://".
Proof.
  split.
  - exact (proj1 (proj2 (database_uri_scheme None "" "u:pw@db.example.org:5432/sakkara"))).
  - exact (proj1 (proj2 (proj2
             (database_uri_scheme None "mysql://db.example.org/postgres://" "")))
             eq_refl eq_refl).
Defined.

(** ** The migration script *)

Lemma exact_is_same_column (c : string) (columns : list string) :
  existsb (String.eqb c) columns = true -> existsb (same_column c) columns = true.
Proof.
  induction columns as [|d columns IH]; [discriminate|].
  cbn [existsb]. intros H. apply orb_true_iff in H. apply orb_true_iff.
  destruct H as [H|H]; [left | right; apply IH, H].
  apply String.eqb_eq in H. subst d. unfold same_column. apply String.eqb_refl.
Qed.

Lemma same_column_app (c : string) (columns : list string) :
  existsb (same_column c) (columns ++ [c]) = true.
Proof.
  rewrite existsb_app. cbn [existsb]. unfold same_column at 2.
  rewrite String.eqb_refl. apply orb_true_iff. right. reflexivity.
Qed.

Lemma no_same_column (c : string) (columns : list string) :
  existsb (same_column c) columns = false -> ~ In (lower c) (map lower columns).
Proof.
  induction columns as [|d columns IH]; [intros _ []|].
  cbn [existsb map]. intros H. apply orb_false_iff in H. destruct H as [Hd Hc].
  intros [E|Hin]; [|exact (IH Hc Hin)].
  unfold same_column in Hd. rewrite E, String.eqb_refl in Hd. discriminate.
Qed.

Lemma migrate_database_file (f : DbFile) :
  fst (migrate_database f) =
  match f with
  | SqliteFile (Some columns) =>
      if existsb (same_column "name") columns then f
      else SqliteFile (Some (columns ++ ["name"]))
  | _ => f
  end.
Proof.
  destruct f as [|[columns|]]; try reflexivity.
  unfold migrate_database, add_name_column.
  destruct (existsb (String.eqb "name") columns) eqn:E; cbn [negb].
  - rewrite (exact_is_same_column _ _ E). reflexivity.
  - destruct (existsb (same_column "name") columns); reflexivity.
Qed.

(** X9. The migration can be run any number of times: a second run
    leaves the file as the first run left it.  When the [user] table
    exists, the run keeps all its columns in their order and adds at most
    the one column [name] at the end; afterwards the table has a column
    SQLite calls [name]; and column names that were distinct to SQLite
    stay distinct (a table with a column [Name] is left alone rather than
    given a second one).  A missing file and a file without the table are
    left as they are. *)
Theorem migrate_database_repeatable (f : DbFile) (columns : list string) :
  fst (migrate_database (fst (migrate_database f))) = fst (migrate_database f) /\
  (exists columns',
     fst (migrate_database (SqliteFile (Some columns))) = SqliteFile (Some columns') /\
     (columns' = columns \/ columns' = columns ++ ["name"]) /\
     existsb (same_column "name") columns' = true /\
     (distinct_columns columns -> distinct_columns columns')) /\
  fst (migrate_database NoFile) = NoFile /\
  fst (migrate_database (SqliteFile None)) = SqliteFile None.
Proof.
  split; [|split; [|split; reflexivity]].
  - rewrite !migrate_database_file.
    destruct f as [|[cols|]]; try reflexivity.
    destruct (existsb (same_column "name") cols) eqn:S.
    + rewrite S. reflexivity.
    + rewrite same_column_app. reflexivity.
  - rewrite migrate_database_file.
    destruct (existsb (same_column "name") columns) eqn:S.
    + exists columns. split; [reflexivity|]. split; [now left|]. split; [exact S | auto].
    + exists (columns ++ ["name"]). split; [reflexivity|]. split; [now right|].
      split; [apply same_column_app|].
      unfold distinct_columns. intros Hd. rewrite map_app. cbn [map].
      apply NoDup_app; [exact Hd | repeat constructor; intros [] |].
      intros c Hc [<-|[]]. exact (no_same_column _ _ S Hc).
Qed.

Lemma migrate_database_repeatable_witness :
  distinct_columns ["id"; "email"; "password_hash"] /\
  exists columns',
    fst (migrate_database (SqliteFile (Some ["id"; "email"; "password_hash"])))
      = SqliteFile (Some columns') /\
    existsb (same_column "name") columns' = true /\
    distinct_columns columns'.
Proof.
  assert (Hd : distinct_columns ["id"; "email"; "password_hash"]).
  { unfold distinct_columns. cbn. repeat constructor; cbn; intuition discriminate. }
  split; [exact Hd|].
  destruct (migrate_database_repeatable NoFile ["id"; "email"; "password_hash"])
    as (_ & (columns' & Hrun & _ & Hname & Hkeep) & _).
  exists columns'. split; [exact Hrun|]. split; [exact Hname | exact (Hkeep Hd)].
Defined.

(** A table whose column is spelled [Name] is not touched, and the error
    SQLite raises is printed. *)
Example migrate_database_other_spelling :
  migrate_database (SqliteFile (Some ["id"; "Name"]))
  = (SqliteFile (Some ["id"; "Name"]),
     ["Adding 'name' column to user table...";
      "Migration error: duplicate column name: name"]).
Proof. reflexivity. Qed.

(** ** Invariants of handlers *)

Section Preserves.
Context {A : Type} (I : Ctx -> Prop).

Lemma preserves_ret (a : A) : preserves I (ret a).
Proof. intros c Hc. exact Hc. Qed.

Lemma preserves_raise (e : exn) : preserves I (@raise A e).
Proof. intros c Hc. exact Hc. Qed.

Lemma preserves_lift (r : result A) : preserves I (lift r).
Proof. intros c Hc. exact Hc. Qed.

Lemma preserves_bind {B : Type} (m : M B) (k : B -> M A) :
  preserves I m -> (forall b, preserves I (k b)) -> preserves I (bind m k).
Proof.
  intros Hm Hk c Hc. unfold bind. specialize (Hm c Hc).
  destruct (m c) as [[b|e] c']; cbn [snd] in *; [apply Hk, Hm | exact Hm].
Qed.

Lemma preserves_try_except (m : M A) (h : exn -> M A) :
  preserves I m -> (forall e, preserves I (h e)) -> preserves I (try_except m h).
Proof.
  intros Hm Hh c Hc. unfold try_except. specialize (Hm c Hc).
  destruct (m c) as [[a|e] c']; cbn [snd] in *; [exact Hm | apply Hh, Hm].
Qed.
End Preserves.

Lemma preserves_get_db (I : Ctx -> Prop) : preserves I get_db.
Proof. intros c Hc. exact Hc. Qed.

Lemma preserves_current_user (I : Ctx -> Prop) : preserves I current_user.
Proof. intros c Hc. unfold current_user. destruct (load_user c); exact Hc. Qed.

Lemma preserves_form_item (I : Ctx -> Prop) (req : Request) (k : string) :
  preserves I (form_item req k).
Proof.
  unfold form_item. destruct (form_get k (form req));
    [apply preserves_ret | apply preserves_raise].
Qed.

Lemma preserves_form_int {lib : PyLib} (I : Ctx -> Prop) (req : Request) (k : string) :
  preserves I (form_int req k).
Proof.
  unfold form_int. apply preserves_bind; [apply preserves_form_item|].
  intros s. apply preserves_lift.
Qed.

Lemma preserves_login_required (I : Ctx -> Prop) (h : M Response) :
  preserves I h ->
  preserves I (flash "Please log in to access this page." "message") ->
  preserves I (login_required h).
Proof.
  intros Hh Hf c Hc. unfold login_required. destruct (is_authenticated c).
  - apply Hh, Hc.
  - apply (preserves_bind I _ _ Hf (fun _ => preserves_ret I _)), Hc.
Qed.

Lemma serve_app_after (h : M Response) (a : App) :
  app_after (serve h a) =
  mkApp (committed (snd (h (mkCtx (database a) (database a) (cookie a) []))))
        (user_cookie (snd (h (mkCtx (database a) (database a) (cookie a) [])))).
Proof.
  unfold serve.
  destruct (h (mkCtx (database a) (database a) (cookie a) [])) as [[r|e] c]; reflexivity.
Qed.

(** *** Profile edits *)

Lemma profile_edit_refl (i : Z) (v : User.row) : profile_edit i v v.
Proof. unfold profile_edit. auto. Qed.

Lemma profile_edits_refl (i : Z) (db : Store) : profile_edits i db db.
Proof.
  split; [|reflexivity].
  induction (users db); constructor; [apply profile_edit_refl | assumption].
Qed.

Lemma profile_edits_set (i : Z) (f : User.row -> User.row) (db db' : Store) (u : User.row) :
  keeps_identity f -> User.id u = i ->
  profile_edits i db db' ->
  profile_edits i db
    (mkStore (map (fun v => if User.id v =? User.id u then f v else v) (users db'))
             (readings db')).
Proof.
  intros Hf Hu [Hus Hrs]. split; [|exact Hrs]. cbn [users].
  induction Hus as [|v v' us us' Hv Hus IH]; cbn [map]; constructor; [|exact IH].
  destruct Hv as (Hid & Hem & Hro & Hac & Hother).
  destruct (Z.eqb_spec (User.id v') (User.id u)) as [E|E].
  - destruct (Hf v') as (Fid & Fem & Fro & Fac).
    repeat split; congruence.
  - repeat split; assumption.
Qed.

Lemma editing_flash (i : Z) (db : Store) (message category : string) :
  preserves (editing i db) (flash message category).
Proof. intros c Hc. exact Hc. Qed.

Lemma editing_commit (i : Z) (db : Store) : preserves (editing i db) commit.
Proof. intros c (Hk & _ & Hs). split; [exact Hk | split; exact Hs]. Qed.

Lemma editing_rollback (i : Z) (db : Store) : preserves (editing i db) rollback.
Proof. intros c (Hk & Hc & _). split; [exact Hk | split; exact Hc]. Qed.

Lemma editing_set_current_user (i : Z) (db : Store) (f : User.row -> User.row) :
  keeps_identity f -> preserves (editing i db) (set_current_user f).
Proof.
  intros Hf c (Hk & Hc & Hs).
  unfold set_current_user, bind, current_user, load_user, get_db, put_db.
  rewrite Hk. destruct (user_get i (users (session_db c))) as [u|] eqn:Hu.
  - cbn [snd]. apply user_get_id in Hu. destruct Hu as [Hid _].
    split; [exact Hk|]. split; [exact Hc|].
    cbn [session_db]. apply profile_edits_set; assumption.
  - cbn [snd]. split; [exact Hk | split; assumption].
Qed.

Lemma setters_keep_identity {lib : PyLib} :
  (forall n, keeps_identity (User.set_name n)) /\
  (forall h, keeps_identity (User.set_password_hash h)) /\
  (forall z, keeps_identity (User.set_before_food_min z)) /\
  (forall z, keeps_identity (User.set_before_food_max z)) /\
  (forall z, keeps_identity (User.set_after_food_min z)) /\
  (forall z, keeps_identity (User.set_after_food_max z)).
Proof. repeat split. Qed.

(** Steps through a handler, one monad operation at a time. *)
Ltac editing_step :=
  first
    [ apply preserves_ret
    | apply preserves_raise
    | apply preserves_lift
    | apply preserves_get_db
    | apply preserves_current_user
    | apply preserves_form_item
    | apply preserves_form_int
    | apply editing_flash
    | apply editing_commit
    | apply editing_rollback
    | apply editing_set_current_user; apply setters_keep_identity
    | apply preserves_try_except; [|intros ?]
    | apply preserves_bind; [|intros ?]
    | match goal with
      | |- preserves _ (match ?x with _ => _ end) => destruct x
      end ].

Lemma update_profile_editing {lib : PyLib} (req : Request) (i : Z) (db : Store) :
  preserves (editing i db) (update_profile req).
Proof.
  unfold update_profile.
  apply preserves_login_required; [|apply editing_flash].
  repeat editing_step.
Qed.

Lemma profile_edits_columns (i : Z) (db db' : Store) :
  profile_edits i db db' ->
  map User.id (users db') = map User.id (users db) /\
  map User.email (users db') = map User.email (users db) /\
  map User.role (users db') = map User.role (users db) /\
  map User.is_active (users db') = map User.is_active (users db).
Proof.
  intros [H _].
  induction H as [|v v' us us' (Hid & Hem & Hro & Hac & _) _ (IH1 & IH2 & IH3 & IH4)];
    cbn [map]; [auto|].
  repeat split; congruence.
Qed.

Lemma update_profile_edits {lib : PyLib} (a : App) (req : Request) (u : User.row) :
  actor a = Some u ->
  let a' := app_after (serve (update_profile req) a) in
  cookie a' = cookie a /\ profile_edits (User.id u) (database a) (database a').
Proof.
  intros Ha a'. subst a'. rewrite serve_app_after. cbn [cookie database].
  destruct (actor_id _ _ Ha) as [Hck _].
  destruct (update_profile_editing req (User.id u) (database a)
              (mkCtx (database a) (database a) (cookie a) [])) as (Hk & Hc & _).
  { split; [exact Hck|]. split; apply profile_edits_refl. }
  split; [congruence | exact Hc].
Qed.

(** X10. Whatever the form holds, [update_profile] edits profile columns
    of the actor only.  For an active logged-in user and any request, the
    users table afterwards has the same rows in the same order up to
    profile edits: every row keeps its id, email, role and active flag,
    the rows of all other users are untouched, the readings are the same
    and the session still belongs to the actor. *)
Theorem update_profile_keeps_identity {lib : PyLib}
    (a : App) (req : Request) (u : User.row) :
  actor a = Some u -> User.is_active u = true ->
  let a' := app_after (serve (update_profile req) a) in
  cookie a' = cookie a /\
  Forall2 (profile_edit (User.id u)) (users (database a)) (users (database a')) /\
  readings (database a') = readings (database a) /\
  map User.id (users (database a')) = map User.id (users (database a)) /\
  map User.email (users (database a')) = map User.email (users (database a)) /\
  map User.role (users (database a')) = map User.role (users (database a)) /\
  map User.is_active (users (database a')) = map User.is_active (users (database a)).
Proof.
  intros Ha _ a'. destruct (update_profile_edits a req u Ha) as [Hck Hed].
  fold a' in Hck, Hed. split; [exact Hck|].
  split; [apply Hed|]. split; [apply Hed|].
  apply (profile_edits_columns _ _ _ Hed).
Qed.

Lemma update_profile_keeps_identity_witness :
  let req := Sample.post [("name", "Mallory"); ("before_food_min", "1");
                          ("before_food_max", "2"); ("after_food_min", "3");
                          ("after_food_max", "4"); ("new_password", "x");
                          ("confirm_password", "x"); ("role", "admin");
                          ("email", "root@example.org"); ("is_active", "0")] in
  let a' := app_after (serve (@update_profile Sample.lib req) (Sample.as_alice Sample.db)) in
  actor (Sample.as_alice Sample.db) = Some Sample.alice /\
  map User.email (users (database a'))
    = ["alice@example.org"; "siddhuplr@gmail.com"; "bob@example.org"] /\
  map User.role (users (database a')) = ["user"; "admin"; "user"] /\
  map User.is_active (users (database a')) = [true; true; false].
Proof.
  intros req a'. split; [reflexivity|].
  destruct (@update_profile_keeps_identity Sample.lib (Sample.as_alice Sample.db) req
              Sample.alice eq_refl eq_refl) as (_ & _ & _ & _ & Hmail & Hrole & Hact).
  split; [exact Hmail|]. split; [exact Hrole | exact Hact].
Defined.

Section ProfileFlow.
Context {lib : PyLib}.

Lemma if_id_preserved (i : Z) (f : User.row -> User.row) :
  (forall v, User.id (f v) = User.id v) ->
  forall v, User.id (if User.id v =? i then f v else v) = User.id v.
Proof. intros Hf v. destruct (User.id v =? i); [apply Hf | reflexivity]. Qed.

(** X11. A profile form whose four ranges are numbers that an [Integer]
    column holds, whose name (if any) fits its [String(100)] column once
    stripped and whose new password is blank is committed: the stored
    row of the actor becomes the old row with the four ranges as sent
    and, when the form has a name that is not blank, the stripped name
    (every other column as it was), "Profile updated successfully!" is
    flashed, and the chart data of the next request carry the new
    ranges. *)
Theorem update_profile_then_chart (a : App) (req req' : Request) (u : User.row)
    (s1 s2 s3 s4 : string) (v1 v2 v3 v4 : Z) :
  actor a = Some u -> User.is_active u = true ->
  form_get "before_food_min" (form req) = Some s1 -> py_int s1 = Some v1 ->
  form_get "before_food_max" (form req) = Some s2 -> py_int s2 = Some v2 ->
  form_get "after_food_min" (form req) = Some s3 -> py_int s3 = Some v3 ->
  form_get "after_food_max" (form req) = Some s4 -> py_int s4 = Some v4 ->
  fits_integer v1 -> fits_integer v2 -> fits_integer v3 -> fits_integer v4 ->
  match form_get "name" (form req) with
  | Some n => fits_string100 (py_strip n)
  | None => True
  end ->
  form_get_stripped req "new_password" = "" ->
  let s := serve (update_profile req) a in
  let named :=
    match form_get "name" (form req) with
    | Some n => if nonempty (py_strip n) then User.set_name (Some (py_strip n)) u else u
    | None => u
    end in
  let u' := User.set_after_food_max v4 (User.set_after_food_min v3
              (User.set_before_food_max v2 (User.set_before_food_min v1 named))) in
  response s = redirect "profile" /\
  messages s = [("Profile updated successfully!", "success")] /\
  actor (app_after s) = Some u' /\
  exists payload,
    response (serve (chart_data req') (app_after s)) = jsonify payload /\
    before_food_range payload = (v1, v2) /\ after_food_range payload = (v3, v4).
Proof.
  intros Ha Hactive Hs1 Hv1 Hs2 Hv2 Hs3 Hv3 Hs4 Hv4 _ _ _ _ _ Hnew s named u'.
  assert (H : response s = redirect "profile" /\
              messages s = [("Profile updated successfully!", "success")] /\
              actor (app_after s) = Some u').
  { subst s u' named. unfold serve, update_profile.
    rewrite (login_required_actor _ _ _ [] Ha Hactive).
    pose proof Ha as Hget. unfold actor in Hget.
    destruct (cookie a) as [i|] eqn:Hck; [|discriminate].
    cbv [try_except bind set_current_user current_user load_user form_int form_item
         lift flash ret rollback put_db get_db raise commit].
    rewrite Hnew.
    destruct (form_get "name" (form req)) as [n|];
      [destruct (nonempty (py_strip n))|];
      repeat (cbv beta iota zeta;
              cbn [committed session_db user_cookie flashed users readings option_map
                   nonempty String.eqb negb
                   User.id User.set_name User.set_before_food_min User.set_before_food_max
                   User.set_after_food_min User.set_after_food_max];
              first [ rewrite Hs1 | rewrite Hv1 | rewrite Hs2 | rewrite Hv2
                    | rewrite Hs3 | rewrite Hv3 | rewrite Hs4 | rewrite Hv4
                    | rewrite Hget
                    | rewrite Z.eqb_refl
                    | rewrite user_get_map
                        by (intros; repeat (apply if_id_preserved; intros); reflexivity) ]).
    all: cbv beta iota zeta; cbn [response messages app_after].
    all: split; [reflexivity|]; split; [reflexivity|].
    all: unfold actor; cbn [cookie database users].
    all: repeat (rewrite user_get_map
                   by (intros; repeat (apply if_id_preserved; intros); reflexivity)).
    all: rewrite Hget; cbn [option_map].
    all: rewrite ?Z.eqb_refl; reflexivity. }
  destruct H as (Hr & Hm & Hact). split; [exact Hr|]. split; [exact Hm|].
  split; [exact Hact|].
  assert (Hactive' : User.is_active u' = true).
  { subst u' named. destruct (form_get "name" (form req)) as [n|];
      [destruct (nonempty (py_strip n))|]; exact Hactive. }
  rewrite (serve_chart_data _ _ _ Hact Hactive'). cbv zeta. eexists. split; [reflexivity|].
  subst u'. split; reflexivity.
Qed.

End ProfileFlow.

Lemma update_profile_then_chart_witness :
  let req := Sample.post [("name", "  Alice L. "); ("before_food_min", "70");
                          ("before_food_max", "120"); ("after_food_min", "95");
                          ("after_food_max", "170"); ("new_password", "  ")] in
  let s := serve (@update_profile Sample.lib req) (Sample.as_alice Sample.db) in
  actor (app_after s)
    = Some (User.mk 1 "alice@example.org" (Some "Alice L.") "s1$wonderland" "user" true
                    70 120 95 170) /\
  exists payload,
    response (serve (@chart_data Sample.lib Sample.get) (app_after s)) = jsonify payload /\
    before_food_range payload = (70, 120) /\ after_food_range payload = (95, 170).
Proof.
  intros req s.
  destruct (@update_profile_then_chart Sample.lib (Sample.as_alice Sample.db) req
              Sample.get Sample.alice "70" "120" "95" "170" 70 120 95 170
              eq_refl eq_refl eq_refl eq_refl eq_refl eq_refl eq_refl eq_refl eq_refl
              eq_refl
              ltac:(unfold fits_integer; lia) ltac:(unfold fits_integer; lia)
              ltac:(unfold fits_integer; lia) ltac:(unfold fits_integer; lia)
              ltac:(unfold fits_string100; cbn; lia)
              eq_refl) as (_ & _ & Hact & Hchart).
  split; [exact Hact | exact Hchart].
Defined.

(** ** Views read, mutations keep the schema constraints *)

Lemma untouched_flash (db : Store) (message category : string) :
  preserves (untouched db) (flash message category).
Proof. intros c Hc. exact Hc. Qed.

Lemma untouched_login_user (db : Store) (u : User.row) :
  preserves (untouched db) (login_user u).
Proof. intros c Hc. unfold login_user. destruct (User.is_active u); exact Hc. Qed.

Lemma untouched_logout_user (db : Store) : preserves (untouched db) logout_user.
Proof. intros c Hc. exact Hc. Qed.

Ltac untouched_step :=
  first
    [ apply preserves_ret
    | apply preserves_raise
    | apply preserves_lift
    | apply preserves_get_db
    | apply preserves_current_user
    | apply preserves_form_item
    | apply untouched_flash
    | apply untouched_login_user
    | apply untouched_logout_user
    | apply preserves_login_required; [|apply untouched_flash]
    | apply preserves_bind; [|intros ?]
    | match goal with
      | |- preserves _ (match ?x with _ => _ end) => destruct x
      end ].

Lemma serve_untouched (h : M Response) (a : App) :
  preserves (untouched (database a)) h ->
  database (app_after (serve h a)) = database a.
Proof.
  intros Hh. rewrite serve_app_after. cbn [database].
  apply (Hh (mkCtx (database a) (database a) (cookie a) [])). split; reflexivity.
Qed.

(** X12. The views and the session routes only read: whatever the
    request and whoever sends it, [login], [logout], [dashboard],
    [history], [admin_dashboard], [manage_readings] and [chart_data]
    leave both tables exactly as they were. *)
Theorem views_read_only {lib : PyLib} (a : App) (req : Request) :
  database (app_after (serve (login req) a)) = database a /\
  database (app_after (serve (logout req) a)) = database a /\
  database (app_after (serve (dashboard req) a)) = database a /\
  database (app_after (serve (history req) a)) = database a /\
  database (app_after (serve (admin_dashboard req) a)) = database a /\
  database (app_after (serve (manage_readings req) a)) = database a /\
  database (app_after (serve (chart_data req) a)) = database a.
Proof.
  repeat split; apply serve_untouched.
  - unfold login. repeat untouched_step.
  - unfold logout. repeat untouched_step.
  - unfold dashboard. repeat untouched_step.
  - unfold history. repeat untouched_step.
  - unfold admin_dashboard. repeat untouched_step.
  - unfold manage_readings. repeat untouched_step.
  - unfold chart_data. repeat untouched_step.
Qed.

Lemma user_by_email_none (e : string) (us : list User.row) :
  user_by_email e us = None -> ~ In e (map User.email us).
Proof.
  unfold user_by_email. intros H Hin. apply in_map_iff in Hin.
  destruct Hin as (u & <- & Hu).
  apply (find_none _ _ H) in Hu. rewrite String.eqb_refl in Hu. discriminate.
Qed.

Lemma constraints_same_keys (db db' : Store) :
  map User.id (users db') = map User.id (users db) ->
  map User.email (users db') = map User.email (users db) ->
  readings db' = readings db ->
  store_ok db /\ emails_unique db -> store_ok db' /\ emails_unique db'.
Proof.
  unfold store_ok, emails_unique. intros Hid Hem Hrs [[Hnd Hfk] Hun].
  rewrite Hid, Hem, Hrs. split; [split; [exact Hnd|] | exact Hun].
  intros r Hr. destruct (Hfk r Hr) as (u & Hu & E).
  assert (Hin : In (Reading.user_id r) (map User.id (users db'))).
  { rewrite Hid, <- E. apply in_map, Hu. }
  apply in_map_iff in Hin. destruct Hin as (u' & E' & Hu'). eauto.
Qed.

Lemma constraints_map (db : Store) (g : User.row -> User.row) :
  (forall v, User.id (g v) = User.id v) -> (forall v, User.email (g v) = User.email v) ->
  store_ok db /\ emails_unique db ->
  store_ok (mkStore (map g (users db)) (readings db)) /\
  emails_unique (mkStore (map g (users db)) (readings db)).
Proof.
  intros Hid Hem. apply constraints_same_keys; cbn [users readings];
    rewrite ?map_map; try reflexivity; apply map_ext; assumption.
Qed.

Lemma constraints_new_user (db : Store) (u : User.row) :
  ~ In (User.id u) (map User.id (users db)) ->
  ~ In (User.email u) (map User.email (users db)) ->
  store_ok db /\ emails_unique db ->
  store_ok (mkStore (users db ++ [u]) (readings db)) /\
  emails_unique (mkStore (users db ++ [u]) (readings db)).
Proof.
  unfold store_ok, emails_unique. cbn [users readings].
  intros Hid Hem [[Hnd Hfk] Hun]. rewrite !map_app. cbn [map].
  split; [split|].
  - apply NoDup_app; [exact Hnd | repeat constructor; intros [] |].
    intros i Hi [<-|[]]. contradiction.
  - intros r Hr. destruct (Hfk r Hr) as (o & Ho & E).
    exists o. split; [apply in_or_app; now left | exact E].
  - apply NoDup_app; [exact Hun | repeat constructor; intros [] |].
    intros e He [<-|[]]. contradiction.
Qed.

Lemma constraints_fewer_readings (db : Store) (p : Reading.row -> bool) :
  store_ok db /\ emails_unique db ->
  store_ok (mkStore (users db) (filter p (readings db))) /\
  emails_unique (mkStore (users db) (filter p (readings db))).
Proof.
  unfold store_ok, emails_unique. cbn [users readings].
  intros [[Hnd Hfk] Hun]. split; [split; [exact Hnd|] | exact Hun].
  intros r Hr. apply filter_In in Hr. apply Hfk, Hr.
Qed.

Section Constraints2.
Context {lib : PyLib}.

Lemma signup_appends (a : App) (req : Request) :
  let db' := database (app_after (serve (signup req) a)) in
  db' = database a \/
  exists u, ~ In (User.id u) (map User.id (users (database a))) /\
            ~ In (User.email u) (map User.email (users (database a))) /\
            db' = mkStore (users (database a) ++ [u]) (readings (database a)).
Proof.
  unfold serve, signup.
  cbv [bind form_item ret raise get_db put_db commit flash].
  destruct (String.eqb (method req) "POST"); [|left; reflexivity].
  destruct (form_get "email" (form req)) as [email|]; [|left; reflexivity].
  cbv beta iota.
  destruct (form_get "password" (form req)) as [password|]; [|left; reflexivity].
  cbv beta iota. cbn [session_db].
  destruct (user_by_email email (users (database a))) eqn:E; [left; reflexivity|].
  right. eexists. split; [|split; [|reflexivity]].
  - apply next_id_fresh.
  - apply user_by_email_none, E.
Qed.

Lemma admin_edit_effect (a : App) (h : User.row -> Store -> M Response) :
  (forall u c, session_db c = database a -> committed c = database a ->
               exists g, (forall v, User.id (g v) = User.id v) /\
                         (forall v, User.email (g v) = User.email v) /\
                         committed (snd (h u (database a) c))
                         = mkStore (map g (users (database a))) (readings (database a))) ->
  exists g, (forall v, User.id (g v) = User.id v) /\
            (forall v, User.email (g v) = User.email v) /\
            database (app_after (serve
              (login_required
                 (bind current_user (fun u =>
                    if negb (is_admin u) then ret (redirect "dashboard")
                    else bind get_db (h u)))) a))
            = mkStore (map g (users (database a))) (readings (database a)).
Proof.
  intros Hh. rewrite serve_app_after. cbn [database].
  assert (Hsame : exists g : User.row -> User.row,
            (forall v, User.id (g v) = User.id v) /\
            (forall v, User.email (g v) = User.email v) /\
            database a = mkStore (map g (users (database a))) (readings (database a))).
  { exists (fun v => v). rewrite map_id. destruct (database a). auto. }
  unfold login_required, is_authenticated, load_user, bind, current_user, load_user,
    get_db.
  cbn [user_cookie session_db].
  destruct (cookie a) as [i|]; [|exact Hsame].
  destruct (user_get i (users (database a))) as [u|]; [|exact Hsame].
  destruct (User.is_active u); [|exact Hsame].
  destruct (is_admin u); cbn [negb]; [|exact Hsame].
  apply Hh; reflexivity.
Qed.

Lemma toggle_user_effect (a : App) (req : Request) (i : Z) :
  exists g, (forall v, User.id (g v) = User.id v) /\
            (forall v, User.email (g v) = User.email v) /\
            database (app_after (serve (toggle_user i req) a))
            = mkStore (map g (users (database a))) (readings (database a)).
Proof.
  apply (admin_edit_effect a (fun _ db =>
    match user_get i (users db) with
    | None => raise NotFound
    | Some user => _
    end)).
  intros u c Hs Hc.
  destruct (user_get i (users (database a))) as [user|].
  - eexists. refine (conj _ (conj _ _)); cycle 2.
    + unfold bind, put_db, commit, flash, ret. cbn. reflexivity.
    + intros v. cbv beta. destruct (User.id v =? User.id user); reflexivity.
    + intros v. cbv beta. destruct (User.id v =? User.id user); reflexivity.
  - exists (fun v => v). rewrite map_id. cbn. rewrite Hc. destruct (database a). auto.
Qed.

Lemma reset_user_password_effect (a : App) (req : Request) (i : Z) :
  exists g, (forall v, User.id (g v) = User.id v) /\
            (forall v, User.email (g v) = User.email v) /\
            database (app_after (serve (reset_user_password i req) a))
            = mkStore (map g (users (database a))) (readings (database a)).
Proof.
  apply (admin_edit_effect a (fun _ db =>
    match user_get i (users db) with
    | None => raise NotFound
    | Some user => _
    end)).
  intros u c Hs Hc.
  destruct (user_get i (users (database a))) as [user|].
  - eexists. refine (conj _ (conj _ _)); cycle 2.
    + unfold bind, put_db, commit, flash, ret. cbn. reflexivity.
    + intros v. cbv beta. destruct (User.id v =? User.id user); reflexivity.
    + intros v. cbv beta. destruct (User.id v =? User.id user); reflexivity.
  - exists (fun v => v). rewrite map_id. cbn. rewrite Hc. destruct (database a). auto.
Qed.

End Constraints2.

Lemma filter_all {A : Type} (l : list A) : filter (fun _ => true) l = l.
Proof. induction l as [|x l IH]; cbn; [reflexivity | f_equal; exact IH]. Qed.

Lemma delete_reading_effect (a : App) (req : Request) (i : Z) :
  exists p, database (app_after (serve (delete_reading i req) a))
            = mkStore (users (database a)) (filter p (readings (database a))).
Proof.
  assert (Hsame : exists p, database a
                   = mkStore (users (database a)) (filter p (readings (database a)))).
  { exists (fun _ => true). rewrite filter_all. destruct (database a); reflexivity. }
  destruct (authenticated a) eqn:Hauth.
  - unfold authenticated in Hauth. destruct (actor a) as [u|] eqn:Ha; [|discriminate].
    rewrite (serve_delete_reading _ _ _ _ Ha Hauth).
    destruct (reading_get i (readings (database a))) as [r|]; [|exact Hsame].
    destruct (negb (is_admin u) && negb (Reading.user_id r =? User.id u));
      [exact Hsame|].
    eexists. reflexivity.
  - unfold delete_reading. rewrite (serve_anonymous _ _ Hauth). exact Hsame.
Qed.

(** X13. The mutating routes keep the keys the schema declares.  If user
    ids are unique, every reading belongs to a user row and emails are
    unique, the same holds after [signup], [add_reading],
    [update_profile], [toggle_user], [reset_user_password] and
    [delete_reading], for any request, sender and target id, and after
    the start-up creation of the admin account. *)
Theorem constraints_kept {lib : PyLib} (a : App) (req : Request) (i : Z) (salt : string) :
  store_ok (database a) -> emails_unique (database a) ->
  let kept h := store_ok (database (app_after (serve h a))) /\
                emails_unique (database (app_after (serve h a))) in
  kept (signup req) /\ kept (add_reading req) /\ kept (update_profile req) /\
  kept (toggle_user i req) /\ kept (reset_user_password i req) /\
  kept (delete_reading i req) /\
  store_ok (startup salt (database a)) /\ emails_unique (startup salt (database a)).
Proof.
  intros Hok Hun kept. subst kept. cbv beta.
  assert (H : store_ok (database a) /\ emails_unique (database a)) by (split; assumption).
  split; [|split; [|split; [|split; [|split; [|split]]]]].
  - destruct (signup_appends a req) as [->|(u & Hid & Hem & ->)]; [exact H|].
    apply constraints_new_user; assumption.
  - destruct (add_reading_effect a req) as [->|(u & r & Ha & Hown & ->)]; [exact H|].
    split; [|exact Hun]. destruct Hok as [Hnd Hfk]. split; [exact Hnd|].
    cbn [users readings]. intros r' Hr'. apply in_app_or in Hr'.
    destruct Hr' as [Hr'|[<-|[]]]; [apply Hfk, Hr'|].
    exists u. split; [apply (actor_id _ _ Ha) | symmetry; exact Hown].
  - destruct (actor a) as [u|] eqn:Ha.
    + destruct (update_profile_edits a req u Ha) as [_ Hed].
      destruct (profile_edits_columns _ _ _ Hed) as (Hid & Hem & _).
      apply (constraints_same_keys (database a)); [exact Hid | exact Hem | apply Hed | exact H].
    + unfold update_profile. rewrite serve_anonymous; [exact H|].
      unfold authenticated. rewrite Ha. reflexivity.
  - destruct (toggle_user_effect a req i) as (g & Hid & Hem & ->).
    apply constraints_map; assumption.
  - destruct (reset_user_password_effect a req i) as (g & Hid & Hem & ->).
    apply constraints_map; assumption.
  - destruct (delete_reading_effect a req i) as (p & ->).
    apply constraints_fewer_readings, H.
  - rewrite startup_eq.
    destruct (user_by_email "siddhuplr@gmail.com" (users (database a))) eqn:E; [exact H|].
    apply (constraints_new_user (database a)); [apply next_id_fresh | | exact H].
    apply user_by_email_none, E.
Qed.

Lemma constraints_kept_witness :
  let a := Sample.as_root Sample.db in
  store_ok (database (app_after (serve (toggle_user 1 Sample.get) a))) /\
  emails_unique (database (app_after
    (serve (@signup Sample.lib
              (Sample.post [("email", "carol@example.org"); ("password", "tea")])) a))).
Proof.
  intros a.
  assert (Hok : store_ok (database a)).
  { split.
    - cbn. repeat constructor; cbn; intuition discriminate.
    - intros r Hr. exists Sample.alice. split; [now left|].
      cbn in Hr. repeat (destruct Hr as [<-|Hr]; [reflexivity|]). contradiction. }
  assert (Hun : emails_unique (database a)).
  { unfold emails_unique. cbn. repeat constructor; cbn; intuition discriminate. }
  destruct (@constraints_kept Sample.lib a Sample.get 1 "s9" Hok Hun)
    as (_ & _ & _ & [Htoggle _] & _).
  destruct (@constraints_kept Sample.lib a
              (Sample.post [("email", "carol@example.org"); ("password", "tea")])
              1 "s9" Hok Hun) as ([_ Hsignup] & _).
  split; [exact Htoggle | exact Hsignup].
Defined.

(** ** The chart in date order *)

Lemma date_asc_spec (a b : Reading.row) : date_asc a b = true <-> date_le a b.
Proof.
  unfold date_asc, date_ltb, date_le.
  rewrite (date_compare_antisym (Reading.date a) (Reading.date b)).
  destruct (date_compare (Reading.date a) (Reading.date b)); cbn;
    split; intros H; try reflexivity; try discriminate; congruence.
Qed.

Lemma date_asc_total (a b : Reading.row) : date_asc a b = false -> date_asc b a = true.
Proof.
  unfold date_asc, date_ltb.
  rewrite (date_compare_antisym (Reading.date a) (Reading.date b)).
  destruct (date_compare (Reading.date a) (Reading.date b)); cbn;
    intros H; try reflexivity; discriminate.
Qed.

Lemma date_le_trans (a b c : Reading.row) : date_le a b -> date_le b c -> date_le a c.
Proof.
  unfold date_le. rewrite !date_compare_gt. lia.
Qed.

Lemma date_order_sorted (l : list Reading.row) : StronglySorted date_le (order_by date_asc l).
Proof.
  apply Sorted_StronglySorted.
  - intros a b c. apply date_le_trans.
  - pose proof (order_by_sorted date_asc date_asc_total l) as H.
    induction H as [|x l' Hs IH Hhd]; constructor; [exact IH|].
    destruct Hhd; constructor. apply date_asc_spec. assumption.
Qed.

Lemma sorted_filter {A : Type} (R : A -> A -> Prop) (p : A -> bool) (l : list A) :
  StronglySorted R l -> StronglySorted R (filter p l).
Proof.
  induction 1 as [|x l Hs IH Hall]; cbn [filter]; [constructor|].
  destruct (p x); [|exact IH].
  constructor; [exact IH|].
  apply Forall_forall. intros y Hy. apply filter_In in Hy.
  rewrite Forall_forall in Hall. apply Hall, Hy.
Qed.

(** X14. The two sequences of the [chart_data] response are in date
    order: each is the list of points of readings whose dates never
    decrease, for an admin as for a user, and the response carries the
    actor's own four reference-range numbers. *)
Theorem chart_points_in_date_order {lib : PyLib} (a : App) (req : Request) (u : User.row) :
  actor a = Some u -> User.is_active u = true ->
  exists payload before after,
    response (serve (chart_data req) a) = jsonify payload /\
    before_food payload = map (chart_point (is_admin u) (users (database a))) before /\
    after_food payload = map (chart_point (is_admin u) (users (database a))) after /\
    StronglySorted date_le before /\ StronglySorted date_le after /\
    before_food_range payload = (User.before_food_min u, User.before_food_max u) /\
    after_food_range payload = (User.after_food_min u, User.after_food_max u).
Proof.
  intros Ha Hactive. rewrite (serve_chart_data _ _ _ Ha Hactive). cbv zeta.
  eexists. eexists. eexists. split; [reflexivity|].
  cbn [before_food after_food before_food_range after_food_range].
  split; [reflexivity|]. split; [reflexivity|].
  assert (Hs : StronglySorted date_le (chart_readings u (database a))).
  { unfold chart_readings. destruct (is_admin u); apply date_order_sorted. }
  split; [apply sorted_filter, Hs|]. split; [apply sorted_filter, Hs|].
  split; reflexivity.
Qed.

Lemma chart_points_in_date_order_witness :
  exists payload before after,
    response (serve (@chart_data Sample.lib Sample.get) (Sample.as_root Sample.db_fasting))
      = jsonify payload /\
    before_food payload = map (@chart_point Sample.lib true (users Sample.db)) before /\
    after_food payload = map (@chart_point Sample.lib true (users Sample.db)) after /\
    StronglySorted date_le before /\ StronglySorted date_le after /\
    before_food_range payload = (80, 130) /\ after_food_range payload = (90, 180).
Proof.
  exact (@chart_points_in_date_order Sample.lib (Sample.as_root Sample.db_fasting)
           Sample.get Sample.root eq_refl eq_refl).
Defined.

(** ** Readings over several requests *)

Lemma reading_get_last (rs : list Reading.row) (r : Reading.row) :
  ~ In (Reading.id r) (map Reading.id rs) ->
  reading_get (Reading.id r) (rs ++ [r]) = Some r /\
  filter (fun r' => negb (Reading.id r' =? Reading.id r)) (rs ++ [r]) = rs.
Proof.
  unfold reading_get. induction rs as [|x rs IH]; cbn [map app filter find].
  - intros _. rewrite Z.eqb_refl. auto.
  - intros Hnot. destruct (Z.eqb_spec (Reading.id x) (Reading.id r)) as [E|E].
    + exfalso. apply Hnot. now left.
    + cbn [negb]. destruct IH as [IH1 IH2]; [intros H; apply Hnot; now right|].
      rewrite IH2. auto.
Qed.

(** X15. Adding a reading and deleting it again restores the database:
    after a successful [add_reading] the readings table has one more
    row, and a [delete_reading] of that row's id by the same user leaves
    both tables as they were before the addition. *)
Theorem add_then_delete_restores {lib : PyLib} (a : App) (req req' : Request) :
  response (serve (add_reading req) a) = redirect "dashboard" ->
  let a1 := app_after (serve (add_reading req) a) in
  exists r,
    readings (database a1) = readings (database a) ++ [r] /\
    let s := serve (delete_reading (Reading.id r) req') a1 in
    app_after s = a /\
    messages s = [("Reading deleted successfully!", "success")].
Proof.
  intros Hok a1. subst a1.
  destruct (add_reading_success a req Hok)
    as (u & date_s & d & t & m & sugar_s & v & f
        & Ha & Hactive & Hds & Hd & Ht & Hm & Hvs & Hv & Hf).
  rewrite (serve_add_reading _ _ _ _ _ _ _ _ _ _ Ha Hactive Hds Hd Ht Hm Hvs Hv Hf).
  cbn [app_after database readings].
  set (r := Reading.mk (next_id (map Reading.id (readings (database a)))) (User.id u)
                       d t m v (Some f) (utcnow req)).
  exists r. split; [reflexivity|].
  assert (Hact : actor (mkApp (mkStore (users (database a)) (readings (database a) ++ [r]))
                              (cookie a)) = Some u).
  { unfold actor in *. cbn. exact Ha. }
  cbv zeta. rewrite (serve_delete_reading _ _ _ _ Hact Hactive).
  cbn [database readings users cookie].
  destruct (reading_get_last (readings (database a)) r) as [Hget Hfilter].
  { apply next_id_fresh. }
  rewrite Hget. cbn [Reading.user_id r]. rewrite Z.eqb_refl, andb_false_r.
  cbn [app_after messages]. rewrite Hfilter. split; [|reflexivity].
  destruct a as [[us rs] ck]. reflexivity.
Qed.

Lemma add_then_delete_restores_witness :
  let req := Sample.post [("date", "2025-02-03"); ("time_of_day", "Night");
                          ("meal_relation", "After Food"); ("sugar_value", "145");
                          ("food_eaten", "dosa")] in
  let a1 := app_after (serve (@add_reading Sample.lib req) (Sample.as_alice Sample.db)) in
  exists r,
    readings (database a1) = Sample.three ++ [r] /\
    app_after (serve (delete_reading (Reading.id r) Sample.get) a1)
      = Sample.as_alice Sample.db.
Proof.
  intros req a1.
  destruct (@add_then_delete_restores Sample.lib (Sample.as_alice Sample.db) req
              Sample.get eq_refl) as (r & Hadd & Hdel & _).
  exists r. split; [exact Hadd | exact Hdel].
Defined.

Section AddReadingErrors.
Context {lib : PyLib}.

(** X16. [add_reading] stores a reading or nothing.  For a logged-in
    active user the request either succeeds, or it is answered with
    status 400 or 500, flashes nothing and leaves the application as it
    was; in particular a form with all five fields whose date or sugar
    value does not parse is answered with 500 and stores nothing. *)
Theorem add_reading_all_or_nothing (a : App) (req : Request) (u : User.row)
    (date_s time_of_day meal_relation sugar_s food_eaten : string) :
  actor a = Some u -> User.is_active u = true ->
  let s := serve (add_reading req) a in
  (response s = redirect "dashboard" \/
   s = mkServed (http_error 400) [] a \/ s = mkServed (http_error 500) [] a) /\
  (form_get "date" (form req) = Some date_s ->
   form_get "time_of_day" (form req) = Some time_of_day ->
   form_get "meal_relation" (form req) = Some meal_relation ->
   form_get "sugar_value" (form req) = Some sugar_s ->
   form_get "food_eaten" (form req) = Some food_eaten ->
   strptime_ymd date_s = None \/ py_int sugar_s = None ->
   s = mkServed (http_error 500) [] a).
Proof.
  intros Ha Hactive s.
  assert (Es : s = serve (add_reading req) a) by reflexivity.
  clearbody s. revert Es. unfold add_reading. serve_as Ha Hactive. cbv beta iota.
  cbv [bind form_item lift ret raise get_db put_db commit flash].
  destruct (form_get "date" (form req)) as [ds|]; cbv beta iota.
  2: { cbn. rewrite app_eta. intros ->. split; [auto | discriminate]. }
  destruct (strptime_ymd ds) as [d|] eqn:Hd; cbv beta iota.
  2: { cbn. rewrite app_eta. intros ->. split; [auto | reflexivity]. }
  destruct (form_get "time_of_day" (form req)) as [t|]; cbv beta iota.
  2: { cbn. rewrite app_eta. intros ->. split; [auto | discriminate]. }
  destruct (form_get "meal_relation" (form req)) as [m|]; cbv beta iota.
  2: { cbn. rewrite app_eta. intros ->. split; [auto | discriminate]. }
  destruct (form_get "sugar_value" (form req)) as [vs|]; cbv beta iota.
  2: { cbn. rewrite app_eta. intros ->. split; [auto | discriminate]. }
  destruct (py_int vs) as [v|] eqn:Hv; cbv beta iota.
  2: { cbn. rewrite app_eta. intros ->. split; [auto | reflexivity]. }
  destruct (form_get "food_eaten" (form req)) as [f|]; cbv beta iota.
  2: { cbn. rewrite app_eta. intros ->. split; [auto | discriminate]. }
  cbn. intros ->. split; [left; reflexivity|].
  intros Hds _ _ Hvs _ [Hbad|Hbad]; congruence.
Qed.

End AddReadingErrors.

Lemma add_reading_all_or_nothing_witness :
  serve (@add_reading Sample.lib
           (Sample.post [("date", "2025-02-03"); ("time_of_day", "Night");
                         ("meal_relation", "After Food"); ("sugar_value", "high");
                         ("food_eaten", "dosa")]))
        (Sample.as_alice Sample.db)
  = mkServed (http_error 500) [] (Sample.as_alice Sample.db).
Proof.
  refine (proj2 (@add_reading_all_or_nothing Sample.lib (Sample.as_alice Sample.db)
                   (Sample.post [("date", "2025-02-03"); ("time_of_day", "Night");
                                 ("meal_relation", "After Food"); ("sugar_value", "high");
                                 ("food_eaten", "dosa")])
                   Sample.alice "2025-02-03" "Night" "After Food" "high" "dosa"
                   eq_refl eq_refl)
                eq_refl eq_refl eq_refl eq_refl eq_refl _).
  right. reflexivity.
Defined.

(** ** What the dashboard shows *)

Lemma py_min_spec (x : Z) (xs : list Z) :
  In (py_min x xs) (x :: xs) /\ Forall (fun y => py_min x xs <= y) (x :: xs).
Proof.
  unfold py_min. revert x. induction xs as [|y xs IH]; intros x; cbn [fold_left].
  - split; [now left | repeat constructor; lia].
  - destruct (IH (if y <? x then y else x)) as [Hin Hall].
    inversion Hall as [|? ? Hhd Htl]; subst.
    split.
    + destruct Hin as [E|Hin]; [|right; right; exact Hin].
      rewrite <- E. destruct (y <? x); [right; left | left]; reflexivity.
    + destruct (Z.ltb_spec y x); repeat constructor; try lia; exact Htl.
Qed.

Lemma py_max_spec (x : Z) (xs : list Z) :
  In (py_max x xs) (x :: xs) /\ Forall (fun y => y <= py_max x xs) (x :: xs).
Proof.
  unfold py_max. revert x. induction xs as [|y xs IH]; intros x; cbn [fold_left].
  - split; [now left | repeat constructor; lia].
  - destruct (IH (if x <? y then y else x)) as [Hin Hall].
    inversion Hall as [|? ? Hhd Htl]; subst.
    split.
    + destruct Hin as [E|Hin]; [|right; right; exact Hin].
      rewrite <- E. destruct (x <? y); [right; left | left]; reflexivity.
    + destruct (Z.ltb_spec x y); repeat constructor; try lia; exact Htl.
Qed.

(** X17. On the user dashboard [total_readings] counts the readings the
    statistics were computed from, every one of their sugar values lies
    between [min_sugar] and [max_sugar], and when there is at least one
    reading both bounds are sugar values that occur (with none, both
    are 0). *)
Theorem dashboard_min_max (S : list Reading.row) :
  exists st,
    dashboard_stats S = Ok st /\
    DashboardStats.total_readings st = Z.of_nat (List.length S) /\
    Forall (fun r => DashboardStats.min_sugar st <= Reading.sugar_value r
                     <= DashboardStats.max_sugar st) S /\
    match S with
    | [] => DashboardStats.min_sugar st = 0 /\ DashboardStats.max_sugar st = 0
    | _ :: _ => In (DashboardStats.min_sugar st) (sugar_values S) /\
                In (DashboardStats.max_sugar st) (sugar_values S)
    end.
Proof.
  rewrite dashboard_stats_eq. eexists. split; [reflexivity|].
  destruct S as [|r0 rest]; cbn [DashboardStats.total_readings DashboardStats.min_sugar
                                 DashboardStats.max_sugar].
  - repeat split. constructor.
  - destruct (py_min_spec (Reading.sugar_value r0) (sugar_values rest)) as [Hmin Hle].
    destruct (py_max_spec (Reading.sugar_value r0) (sugar_values rest)) as [Hmax Hge].
    split; [reflexivity|]. split; [|split; assumption].
    change (Reading.sugar_value r0 :: sugar_values rest)
      with (map Reading.sugar_value (r0 :: rest)) in Hle, Hge.
    rewrite Forall_map in Hle, Hge. rewrite Forall_forall in *.
    intros r Hr. split; [apply Hle, Hr | apply Hge, Hr].
Qed.

(** ** A user's views show the user's readings only *)

Lemma limit_In {A : Type} (n : nat) (l : list A) (x : A) : In x (limit n l) -> In x l.
Proof.
  unfold limit. revert l. induction n as [|n IH]; intros l; [contradiction|].
  destruct l as [|y l]; [contradiction|]. cbn [firstn].
  intros [->|H]; [now left | right; apply IH, H].
Qed.

Lemma own_readings (i : Z) (db : Store) (r : Reading.row) :
  In r (list_readings i db) -> In r (readings db) /\ Reading.user_id r = i.
Proof.
  unfold list_readings, filter_by_user_id. rewrite order_by_In, filter_In, Z.eqb_eq. tauto.
Qed.

Section OwnReadings.
Context {lib : PyLib}.

(** X18. The views of a regular user depend on that user's readings
    alone.  For an active user who is not an admin, every reading on the
    history page and on the dashboard is a stored reading owned by the
    user; and in two databases that hold the same readings of the user,
    whatever else they hold, the dashboard (list and statistics), the
    history page and the chart data are identical. *)
Theorem user_views_are_isolated (a b : App) (req : Request) (u : User.row) :
  actor a = Some u -> actor b = Some u ->
  User.is_active u = true -> is_admin u = false ->
  filter_by_user_id (User.id u) (readings (database a))
    = filter_by_user_id (User.id u) (readings (database b)) ->
  (exists rs, response (serve (history req) a) = render_template (history_html rs) /\
              Forall (fun r => In r (readings (database a)) /\
                               Reading.user_id r = User.id u) rs) /\
  (exists rs stats,
     response (serve (dashboard req) a) = render_template (dashboard_html rs stats) /\
     Forall (fun r => In r (readings (database a)) /\ Reading.user_id r = User.id u) rs) /\
  response (serve (history req) a) = response (serve (history req) b) /\
  response (serve (dashboard req) a) = response (serve (dashboard req) b) /\
  response (serve (chart_data req) a) = response (serve (chart_data req) b).
Proof.
  intros Ha Hb Hactive Hadm Hsame.
  assert (Hlist : list_readings (User.id u) (database a)
                  = list_readings (User.id u) (database b)).
  { unfold list_readings. rewrite Hsame. reflexivity. }
  rewrite (serve_history _ _ _ Ha Hactive Hadm), (serve_history _ _ _ Hb Hactive Hadm).
  destruct (serve_dashboard a req u Ha Hactive Hadm) as (sa & Hsa & Hda).
  destruct (serve_dashboard b req u Hb Hactive Hadm) as (sb & Hsb & Hdb).
  rewrite Hda, Hdb, (serve_chart_data _ _ _ Ha Hactive), (serve_chart_data _ _ _ Hb Hactive).
  cbn [response]. split; [|split; [|split; [|split]]].
  - eexists. split; [reflexivity|]. apply Forall_forall. intros r. apply own_readings.
  - eexists. eexists. split; [reflexivity|]. apply Forall_forall. intros r Hr.
    apply own_readings. exact (limit_In _ _ _ Hr).
  - rewrite Hlist. reflexivity.
  - rewrite Hsame in Hsa. rewrite Hlist. congruence.
  - cbv zeta. unfold chart_readings, chart_point. rewrite Hadm, Hsame. reflexivity.
Qed.

End OwnReadings.

Lemma user_views_are_isolated_witness :
  let b := Sample.as_alice
             (mkStore (users Sample.db)
                      (Sample.reading 9 3 2 "After Food" 300 :: Sample.three)) in
  response (serve (dashboard Sample.get) (Sample.as_alice Sample.db))
    = response (serve (dashboard Sample.get) b) /\
  response (serve (@chart_data Sample.lib Sample.get) (Sample.as_alice Sample.db))
    = response (serve (@chart_data Sample.lib Sample.get) b).
Proof.
  intros b.
  destruct (@user_views_are_isolated Sample.lib (Sample.as_alice Sample.db) b Sample.get
              Sample.alice eq_refl eq_refl eq_refl eq_refl eq_refl)
    as (_ & _ & _ & Hdash & Hchart).
  split; [exact Hdash | exact Hchart].
Defined.

(** ** Unknown targets *)

(** X19. For an active admin, [toggle_user] and [reset_user_password]
    on an id no user has are answered with status 404 (from
    [get_or_404]), flash nothing and change nothing. *)
Theorem admin_unknown_user_is_404 {lib : PyLib}
    (a : App) (req : Request) (adm : User.row) (i : Z) :
  actor a = Some adm -> User.is_active adm = true -> is_admin adm = true ->
  user_get i (users (database a)) = None ->
  serve (toggle_user i req) a = mkServed (http_error 404) [] a /\
  serve (reset_user_password i req) a = mkServed (http_error 404) [] a.
Proof.
  intros Ha Hactive Hadm Hnone. split.
  - unfold toggle_user. serve_as Ha Hactive. cbv beta iota. rewrite Hadm. cbn [negb].
    unfold bind, get_db. cbn [session_db]. rewrite Hnone.
    cbn. rewrite app_eta. reflexivity.
  - unfold reset_user_password. serve_as Ha Hactive. cbv beta iota. rewrite Hadm. cbn [negb].
    unfold bind, get_db. cbn [session_db]. rewrite Hnone.
    cbn. rewrite app_eta. reflexivity.
Qed.

Lemma admin_unknown_user_is_404_witness :
  serve (toggle_user 7 Sample.get) (Sample.as_root Sample.db)
    = mkServed (http_error 404) [] (Sample.as_root Sample.db) /\
  serve (@reset_user_password Sample.lib 7 Sample.get) (Sample.as_root Sample.db)
    = mkServed (http_error 404) [] (Sample.as_root Sample.db).
Proof.
  exact (@admin_unknown_user_is_404 Sample.lib (Sample.as_root Sample.db) Sample.get
           Sample.root 7 eq_refl eq_refl eq_refl eq_refl).
Defined.
